(** * zk-trust: the encoding / verification pipeline of [trust.py]

    A shallow embedding of the pure core of [src/trust.py] (the address
    split, the prover input vector, the decoding of the prover's document,
    the layout submitted to the verifier) and of the tail of [main], whose
    external collaborators (docker, json, web3) are oracles over an abstract
    world.

    Python values are modelled as follows.
    - [int] is [Z] (arbitrary precision).
    - [str] is [string]; one [ascii] stands for one code point in 0..255.
    - An exception is a value of [exn]; a computation that may raise has
      type [result A].
    - The text an integer is printed as (on the screen, in the log, on the
      prover's command line) is not modelled, and printing it is taken to
      succeed; interpreters from 3.11 on refuse, unless told otherwise, to
      print an integer of more than 4300 digits.
    - Floats are not modelled: of [get_normalized_score] only the overflow
      of the division is. *)

From Stdlib Require Import ZArith String Ascii List Bool Lia.
From Stdlib Require DecimalString DecimalZ.
Import ListNotations.

Local Open Scope string_scope.
Local Open Scope list_scope.
Local Open Scope Z_scope.

(** ** Exceptions and the error monad *)

Inductive exn : Type :=
| ValueError
| TypeError
| KeyError
| IndexError
| OverflowError
| RuntimeError (msg : string)
| ExternalError (name : string).

Inductive result (A : Type) : Type :=
| Ok (a : A)
| Raise (e : exn).

Arguments Ok {A} a.
Arguments Raise {A} e.

Definition rbind {A B : Type} (m : result A) (k : A -> result B) : result B :=
  match m with
  | Ok a => k a
  | Raise e => Raise e
  end.

Declare Scope result_scope.
Delimit Scope result_scope with result.
Notation "x <- m ;; k" := (rbind m (fun x => k))
  (at level 61, m at next level, right associativity) : result_scope.
Notation "' p <- m ;; k" := (rbind m (fun x => match x with p => k end))
  (at level 61, p pattern, m at next level, right associativity) : result_scope.

Definition succeeds {A : Type} (m : result A) : bool :=
  match m with Ok _ => true | Raise _ => false end.

(** ** Python strings *)

Module PyStr.

Definition ord (c : ascii) : Z := Z.of_N (N_of_ascii c).

(** [len(s)] *)
Definition len (s : string) : nat := String.length s.

(** [s[:m]] for [0 <= m]: the first [m] characters (all of [s] when
    [m] exceeds its length). *)
Fixpoint slice_to (m : nat) (s : string) : string :=
  match m, s with
  | S m', String c s' => String c (slice_to m' s')
  | _, _ => EmptyString
  end.

(** [s[m:]] for [0 <= m]: what is left after the first [m] characters. *)
Fixpoint slice_from (m : nat) (s : string) : string :=
  match m, s with
  | S m', String _ s' => slice_from m' s'
  | _, _ => s
  end.

(** [s[i]] for [0 <= i]: the one-character string at [i]. *)
Fixpoint index (i : nat) (s : string) : result string :=
  match i, s with
  | O, String c _ => Ok (String c EmptyString)
  | S i', String _ s' => index i' s'
  | _, EmptyString => Raise IndexError
  end.

End PyStr.

(** ** Python's [int(s, 16)]

    Follows CPython's [PyLong_FromString] with [base = 16]: optional
    surrounding whitespace, an optional sign, an optional [0x]/[0X] prefix
    (which may be followed by one underscore), then digits with single
    underscores between them.  [None] stands for [ValueError]. *)

Module PyInt.
Import PyStr.

(** Whitespace accepted around the literal: TAB, LF, VT, FF, CR, SPACE
    and, among the code points 128..255, NEL (0x85) and NBSP (0xA0). *)
Definition Py_ISSPACE (c : ascii) : bool :=
  let n := ord c in
  ((9 <=? n) && (n <=? 13)) || (n =? 32) || (n =? 133) || (n =? 160).

(** The table [_PyLong_DigitValue]: 37 marks a character that is no digit
    in any base. *)
Definition PyLong_DigitValue (c : ascii) : Z :=
  let n := ord c in
  if (48 <=? n) && (n <=? 57) then n - 48
  else if (97 <=? n) && (n <=? 122) then n - 87
  else if (65 <=? n) && (n <=? 90) then n - 55
  else 37.

Definition is_underscore (c : ascii) : bool := (ord c =? 95).

Fixpoint skip_spaces (s : string) : string :=
  match s with
  | String c s' => if Py_ISSPACE c then skip_spaces s' else s
  | EmptyString => s
  end.

Definition all_spaces (s : string) : bool :=
  match skip_spaces s with EmptyString => true | _ => false end.

(** The scanning loop of [long_from_string_base]: consumes digits below
    [base] and underscores, refuses a doubled or a trailing underscore,
    and returns the value read with the rest of the string. *)
Fixpoint scan_digits (base : Z) (p : string) (prev_us : bool) (acc : Z)
  : option (Z * string) :=
  match p with
  | String c p' =>
      if is_underscore c then
        if prev_us then None else scan_digits base p' true acc
      else if PyLong_DigitValue c <? base then
        scan_digits base p' false (acc * base + PyLong_DigitValue c)
      else if prev_us then None else Some (acc, p)
  | EmptyString => if prev_us then None else Some (acc, p)
  end.

Definition long_from_string_base (base : Z) (str : string) : option Z :=
  match str with
  | EmptyString => None
  | String c _ =>
      if is_underscore c then None
      else if PyLong_DigitValue c <? base then
        match scan_digits base str false 0 with
        | Some (z, rest) => if all_spaces rest then Some z else None
        | None => None
        end
      else None
  end.

Definition strip_sign (s : string) : Z * string :=
  match s with
  | String "+" r => (1, r)
  | String "-" r => (-1, r)
  | _ => (1, s)
  end.

Definition strip_prefix16 (s : string) : string :=
  match s with
  | String "0" (String c r) =>
      if ((ord c =? 120) || (ord c =? 88))%bool then
        match r with
        | String "_" r' => r'
        | _ => r
        end
      else s
  | _ => s
  end.

Definition PyLong_FromString16 (s : string) : option Z :=
  let '(sign, str) := strip_sign (skip_spaces s) in
  match long_from_string_base 16 (strip_prefix16 str) with
  | Some z => Some (sign * z)
  | None => None
  end.

(** [int(s, 16)] on a [str]. *)
Definition int16 (s : string) : result Z :=
  match PyLong_FromString16 s with
  | Some z => Ok z
  | None => Raise ValueError
  end.

End PyInt.

(** ** Values of the prover's document

    What [json.loads] hands back: [None], booleans, integers, strings, lists
    and dictionaries with string keys (an association list, read at the
    first binding of a key).  A JSON number with a
    fraction behaves like [PInt] in every operation below (it can be neither
    subscripted nor given to [int(_, 16)]), and is left out. *)

#[warnings="-register-all"]
Inductive pyval : Type :=
| PNone
| PBool (b : bool)
| PInt (z : Z)
| PStr (s : string)
| PList (l : list pyval)
| PDict (d : list (string * pyval)).

Module PyVal.

Fixpoint dict_get (d : list (string * pyval)) (k : string) : option pyval :=
  match d with
  | [] => None
  | (k', v) :: d' => if String.eqb k' k then Some v else dict_get d' k
  end.

(** [v[k]] with a string key [k]. *)
Definition getitem_key (v : pyval) (k : string) : result pyval :=
  match v with
  | PDict d =>
      match dict_get d k with
      | Some x => Ok x
      | None => Raise KeyError
      end
  | _ => Raise TypeError
  end.

(** [v[i]] with a literal index [i >= 0]. *)
Definition getitem_idx (v : pyval) (i : nat) : result pyval :=
  match v with
  | PList l =>
      match nth_error l i with
      | Some x => Ok x
      | None => Raise IndexError
      end
  | PStr s => rbind (PyStr.index i s) (fun ch => Ok (PStr ch))
  | PDict _ => Raise KeyError
  | _ => Raise TypeError
  end.

(** [int(v, 16)]: only a [str] can be converted with an explicit base. *)
Definition int16 (v : pyval) : result Z :=
  match v with
  | PStr s => PyInt.int16 s
  | _ => Raise TypeError
  end.

End PyVal.

(** ** The data classes *)

(** The value [Proof.to_solidity] builds:
    [((a0, a1), [[b00, b01], [b10, b11]], (c0, c1))]. *)
Definition sol_proof : Type := (Z * Z) * list (list Z) * (Z * Z).

Module Proof.
Local Open Scope result_scope.

(** The fields hold what the document holds (hexadecimal strings, in a
    document of the prover), whatever the annotation [list[int]] says. *)
Record t : Type := mk { a : pyval; b : pyval; c : pyval }.

(** [self.x[i]] then [int(_, 16)] *)
Definition hex_at (x : pyval) (i : nat) : result Z :=
  e <- PyVal.getitem_idx x i ;; PyVal.int16 e.

(** [self.b[i][j]] then [int(_, 16)] *)
Definition hex_at2 (x : pyval) (i j : nat) : result Z :=
  row <- PyVal.getitem_idx x i ;; hex_at row j.

Definition to_solidity (self : t) : result sol_proof :=
  a0 <- hex_at (a self) 0 ;;
  a1 <- hex_at (a self) 1 ;;
  b00 <- hex_at2 (b self) 0 0 ;;
  b01 <- hex_at2 (b self) 0 1 ;;
  b10 <- hex_at2 (b self) 1 0 ;;
  b11 <- hex_at2 (b self) 1 1 ;;
  c0 <- hex_at (c self) 0 ;;
  c1 <- hex_at (c self) 1 ;;
  Ok ((a0, a1), [[b00; b01]; [b10; b11]], (c0, c1)).

End Proof.

Module Inputs.

Record t : Type := mk {
  score : Z;
  signature : Z;
  address_part1 : Z;
  address_part2 : Z
}.

Definition to_solidity (self : t) : list Z :=
  [score self; signature self; address_part1 self; address_part2 self].

Definition BN128_PRIME : Z :=
  21888242871839275222246405745257275088548364400416034343698204186575808495617.

(** [self.score / BN128_PRIME] is a true division to a float.  The float is
    not modelled: a run that gets one is given the exact quotient as the
    pair (numerator, denominator).  What is modelled is when the division
    raises: the correctly rounded quotient leaves the range of a double
    from [2^1024 - 2^970] on. *)
Definition get_normalized_score (self : t) : result (Z * Z) :=
  if (2 ^ 1024 - 2 ^ 970) * BN128_PRIME <=? Z.abs (score self)
  then Raise OverflowError
  else Ok (score self, BN128_PRIME).

End Inputs.

Module Computation.

Record t : Type := mk {
  curve : pyval;
  proof : Proof.t;
  scheme : pyval;
  inputs : Inputs.t
}.

End Computation.

Module Stats.
Local Open Scope result_scope.

Record t : Type := mk {
  contract_address : string;
  has_source_code : bool;
  total_supply : Z;
  name : string;
  symbol : string;
  days_ago_added : Z;
  is_active : bool;
  volume : Z;
  market_cap : Z
}.

Definition split_address (self : t) : result (Z * Z) :=
  let size := PyStr.len (contract_address self) in
  let middle := (size / 2)%nat in
  address_part1 <- PyInt.int16 (PyStr.slice_to middle (contract_address self)) ;;
  address_part2 <- PyInt.int16 (PyStr.slice_from middle (contract_address self)) ;;
  Ok (address_part1, address_part2).

(** [int(b)] of a [bool] *)
Definition int_of_bool (b : bool) : Z := if b then 1 else 0.

Definition to_zkvm_input (self : t) : result (list Z) :=
  ' (address_part1, address_part2) <- split_address self ;;
  Ok [ address_part1;
       address_part2;
       days_ago_added self;
       int_of_bool (is_active self);
       volume self;
       market_cap self;
       total_supply self;
       int_of_bool (has_source_code self) ].

End Stats.

(** ** The external collaborators and the tail of [main]

    Docker, the JSON reader and the web3 node are oracles over an abstract
    [world]; a run threads the world and a trace of what it printed and of
    what it sent to the verifier. *)

Record CompletedProcess : Type := mkCompletedProcess {
  returncode : Z;
  stdout : string;
  stderr : string
}.

Inductive output : Type :=
| OutText (s : string)
| OutCalculation (c : Computation.t)
| OutCertified (receipt : bool)
| OutScore (quotient : Z * Z)
| OutContractAddress (s : string).

Inductive event : Type :=
| EvPrint (o : output)
| EvTransact (proof : sol_proof) (inputs : list Z)
| EvCall (proof : sol_proof) (inputs : list Z).

Section Pipeline.

Variable world : Type.

(** [Docker.get_zokrates_container_name()]: reads the output of
    [docker ps]; its text processing is not modelled. *)
Variable get_zokrates_container_name : world -> result string * world.

(** [subprocess.run] of [zokrates compute-witness -a params && zokrates
    generate-proof] in the container. *)
Variable exec_compute_witness :
  string -> list Z -> world -> result CompletedProcess * world.

(** [subprocess.run] of [cat proof.json] in the container. *)
Variable exec_cat_proof : string -> world -> result CompletedProcess * world.

Variable json_loads : string -> result pyval.

(** [Web3(HTTPProvider(url))] and [w3.eth.contract(address, abi=get_abi())] *)
Variable open_contract : string -> string -> world -> result unit * world.

(** [verifyTx(proof, inputs).build_transaction(...)], signed with the
    private key, sent, and waited for. *)
Variable transact_verifyTx :
  string -> sol_proof -> list Z -> world -> result unit * world.

(** [verifyTx(proof, inputs).call()] *)
Variable call_verifyTx : sol_proof -> list Z -> world -> result bool * world.

Record state : Type := mkState { the_world : world; trace : list event }.

Definition M (A : Type) : Type := state -> result A * state.

Definition ret {A : Type} (x : A) : M A := fun st => (Ok x, st).

Definition raise {A : Type} (e : exn) : M A := fun st => (Raise e, st).

Definition bind {A B : Type} (m : M A) (k : A -> M B) : M B :=
  fun st =>
    match m st with
    | (Ok x, st') => k x st'
    | (Raise e, st') => (Raise e, st')
    end.

Definition lift {A : Type} (r : result A) : M A := fun st => (r, st).

Definition ask {A : Type} (oracle : world -> result A * world) : M A :=
  fun st =>
    let '(r, w') := oracle (the_world st) in
    (r, mkState w' (trace st)).

Definition emit (e : event) : M unit :=
  fun st => (Ok tt, mkState (the_world st) (trace st ++ [e])).

Definition print (o : output) : M unit := emit (EvPrint o).

Declare Scope run_scope.
Delimit Scope run_scope with run.
Notation "x <- m ;; k" := (bind m (fun x => k))
  (at level 61, m at next level, right associativity) : run_scope.
Notation "m ;;; k" := (bind m (fun _ => k))
  (at level 61, right associativity) : run_scope.
Local Open Scope run_scope.

(** Lines 243-258: the [Computation] built from the document read. *)
Definition get_results_of (results : pyval) : result Computation.t :=
  (curve <- PyVal.getitem_key results "curve" ;;
   proof <- PyVal.getitem_key results "proof" ;;
   a <- PyVal.getitem_key proof "a" ;;
   proof <- PyVal.getitem_key results "proof" ;;
   b <- PyVal.getitem_key proof "b" ;;
   proof <- PyVal.getitem_key results "proof" ;;
   c <- PyVal.getitem_key proof "c" ;;
   scheme <- PyVal.getitem_key results "scheme" ;;
   inputs <- PyVal.getitem_key results "inputs" ;;
   score <- rbind (PyVal.getitem_idx inputs 0) PyVal.int16 ;;
   inputs <- PyVal.getitem_key results "inputs" ;;
   signature <- rbind (PyVal.getitem_idx inputs 1) PyVal.int16 ;;
   inputs <- PyVal.getitem_key results "inputs" ;;
   address_part1 <- rbind (PyVal.getitem_idx inputs 2) PyVal.int16 ;;
   inputs <- PyVal.getitem_key results "inputs" ;;
   address_part2 <- rbind (PyVal.getitem_idx inputs 3) PyVal.int16 ;;
   Ok (Computation.mk curve (Proof.mk a b c) scheme
         (Inputs.mk score signature address_part1 address_part2)))%result.

Definition Docker_get_results : M Computation.t :=
  container_name <- ask get_zokrates_container_name ;;
  result <- ask (exec_cat_proof container_name) ;;
  if negb (returncode result =? 0)
  then raise (RuntimeError "ZoKrates get-calculation failed!")
  else
    results <- lift (json_loads (stdout result)) ;;
    lift (get_results_of results).

Definition Docker_run_compute_witness (params : list Z) : M Computation.t :=
  container_name <- ask get_zokrates_container_name ;;
  result <- ask (exec_compute_witness container_name params) ;;
  if negb (returncode result =? 0)
  then raise (RuntimeError "ZoKrates compute-witness failed!")
  else Docker_get_results.

Definition Stats_compute (self : Stats.t) : M Computation.t :=
  params <- lift (Stats.to_zkvm_input self) ;;
  Docker_run_compute_witness params.

Definition Contract_verify (inputs : Inputs.t) (proof : Proof.t)
    (private_key verifier_contract_address ethereum_rpc_url : string)
  : M bool :=
  ask (open_contract ethereum_rpc_url verifier_contract_address) ;;;
  p <- lift (Proof.to_solidity proof) ;;
  emit (EvTransact p (Inputs.to_solidity inputs)) ;;;
  ask (transact_verifyTx private_key p (Inputs.to_solidity inputs)) ;;;
  p' <- lift (Proof.to_solidity proof) ;;
  emit (EvCall p' (Inputs.to_solidity inputs)) ;;;
  ask (call_verifyTx p' (Inputs.to_solidity inputs)).

(** Lines 352-357 of [main]: the inputs handed to the verifier. *)
Definition other_inputs (computation : Computation.t) (stats : Stats.t)
  : result Inputs.t :=
  (let score := Inputs.score (Computation.inputs computation) in
   let signature := Inputs.signature (Computation.inputs computation) in
   split1 <- Stats.split_address stats ;;
   split2 <- Stats.split_address stats ;;
   Ok (Inputs.mk score signature (fst split1) (snd split2)))%result.

Definition verification_failed : string := "❌ Proof verification failed!".

(** Lines 346-365 of [main], from the [stats] built at lines 333-343 (the
    facts gathered over HTTP before are inputs of the model);
    [target_contract_address] is [stats.contract_address].  The asserts of
    lines 297-302 come before and are not part of it: a run that reaches
    line 346 has passed them, so none of its arguments is empty. *)
Definition main (stats : Stats.t)
    (private_key verifier_contract_address ethereum_rpc_url : string)
  : M unit :=
  print (OutText "Calculating score...") ;;;
  computation <- Stats_compute stats ;;
  print (OutCalculation computation) ;;;
  inputs <- lift (other_inputs computation stats) ;;
  receipt <- Contract_verify inputs (Computation.proof computation)
               private_key verifier_contract_address ethereum_rpc_url ;;
  print (OutCertified receipt) ;;;
  score <- lift (Inputs.get_normalized_score inputs) ;;
  print (OutScore score) ;;;
  print (OutContractAddress (Stats.contract_address stats)) ;;;
  if negb receipt
  then raise (RuntimeError verification_failed)
  else ret tt.

End Pipeline.

Arguments mkState {world} _ _.
Arguments the_world {world} _.
Arguments trace {world} _.
Arguments ret {world A} _ _.
Arguments raise {world A} _ _.
Arguments bind {world A B} _ _ _.
Arguments lift {world A} _ _.
Arguments ask {world A} _ _.
Arguments emit {world} _ _.
Arguments print {world} _ _.
Arguments Docker_get_results {world} _ _ _ _.
Arguments Docker_run_compute_witness {world} _ _ _ _ _ _.
Arguments Stats_compute {world} _ _ _ _ _ _.
Arguments Contract_verify {world} _ _ _ _ _ _ _ _ _.
Arguments main {world} _ _ _ _ _ _ _ _ _ _ _ _.

(** ** Hexadecimal numerals, as the specification reads them

    [parseHex] of the specification: a non-empty string of hexadecimal
    digits read in base 16, most significant digit first.  These definitions
    follow the specification's words; the theorems compare them with
    [PyInt.int16], which follows the interpreter. *)

Module Hex.

Definition lower_digits : string := "0123456789abcdef".

Definition upper_digits : string := "0123456789ABCDEF".

(** The position of [c] in [alphabet], counted from [i]. *)
Fixpoint position (c : ascii) (alphabet : string) (i : Z) : option Z :=
  match alphabet with
  | EmptyString => None
  | String x rest =>
      if Ascii.eqb x c then Some i else position c rest (i + 1)
  end.

Definition digit_value (c : ascii) : option Z :=
  match position c lower_digits 0 with
  | Some d => Some d
  | None => position c upper_digits 0
  end.

Definition is_digit (c : ascii) : bool :=
  match digit_value c with Some _ => true | None => false end.

Definition is_lower_digit (c : ascii) : bool :=
  match position c lower_digits 0 with Some _ => true | None => false end.

Fixpoint all_digits (s : string) : bool :=
  match s with
  | EmptyString => true
  | String c s' => is_digit c && all_digits s'
  end.

Fixpoint all_lower_digits (s : string) : bool :=
  match s with
  | EmptyString => true
  | String c s' => is_lower_digit c && all_lower_digits s'
  end.

Definition digit (c : ascii) : Z :=
  match digit_value c with Some d => d | None => 0 end.

Fixpoint value_from (acc : Z) (s : string) : Z :=
  match s with
  | EmptyString => acc
  | String c s' => value_from (acc * 16 + digit c) s'
  end.

Definition value (s : string) : Z := value_from 0 s.

Definition parseHex (s : string) : option Z :=
  match s with
  | EmptyString => None
  | _ => if all_digits s then Some (value s) else None
  end.

(** The lowercase digit of a value below 16. *)
Definition lower_digit_char (d : Z) : ascii :=
  match String.get (Z.to_nat d) lower_digits with
  | Some c => c
  | None => "f"%char
  end.

(** A 40-hex-digit address in the lowercase form of the specification. *)
Definition is_address40 (s : string) : bool :=
  (String.length s =? 40)%nat && all_lower_digits s.

End Hex.

(** ** Concrete inputs used by the examples below *)

(** The fact set of the specification's scenario (a 38-digit address). *)
Definition scenario_stats (name symbol : string) : Stats.t :=
  Stats.mk "00000000000000000000000000000000000001" true 1000 name symbol
           10 true 500 2000.

(** A fact set with the given address and no other fact of interest. *)
Definition stats_of_address (address : string) : Stats.t :=
  Stats.mk address false 0 EmptyString EmptyString 0 false 0 0.

Definition address40 : string := "dac17f958d2ee523a2206206994597c13d831ec7".

Definition address40' : string := "dac17f958d2ee523a2206206994597c13d831ec8".

(** A computation that claims other address fields. *)
Definition with_claimed_address (c : Computation.t) (part1 part2 : Z)
  : Computation.t :=
  Computation.mk (Computation.curve c) (Computation.proof c)
    (Computation.scheme c)
    (Inputs.mk (Inputs.score (Computation.inputs c))
               (Inputs.signature (Computation.inputs c)) part1 part2).

(** What a trace shows to have been handed to the verifier, in order. *)
Fixpoint submitted (tr : list event) : list (sol_proof * list Z) :=
  match tr with
  | [] => []
  | EvTransact p i :: tr' => (p, i) :: submitted tr'
  | EvCall p i :: tr' => (p, i) :: submitted tr'
  | EvPrint _ :: tr' => submitted tr'
  end.

(** A run that prints nothing and submits nothing. *)
Definition quiet {world A : Type} (m : M world A) : Prop :=
  forall st : state world, trace (snd (m st)) = trace st.

(** A document of the shape the prover writes. *)
Definition document (a0 : string) (inputs : list pyval) : pyval :=
  PDict
    [ ("scheme", PStr "g16");
      ("curve", PStr "bn128");
      ("proof",
        PDict
          [ ("a", PList [PStr a0; PStr "0x0a"]);
            ("b", PList [PList [PStr "0x0b"; PStr "0x0c"];
                         PList [PStr "0x0d"; PStr "0x0e"]]);
            ("c", PList [PStr "0x0f"; PStr "0x10"]) ]);
      ("inputs", PList inputs) ].

Definition good_document : pyval :=
  document "0x09" [PStr "0x2a"; PStr "0x07"; PStr "0x0b"; PStr "0x0c"].

(** What [get_results] builds of it. *)
Definition good_computation : Computation.t :=
  Computation.mk (PStr "bn128")
    (Proof.mk (PList [PStr "0x09"; PStr "0x0a"])
              (PList [PList [PStr "0x0b"; PStr "0x0c"];
                      PList [PStr "0x0d"; PStr "0x0e"]])
              (PList [PStr "0x0f"; PStr "0x10"]))
    (PStr "g16") (Inputs.mk 42 7 11 12).

(** The same with a first proof field that is no numeral. *)
Definition bad_proof_document : pyval :=
  document "zz" [PStr "0x2a"; PStr "0x07"; PStr "0x0b"; PStr "0x0c"].

(** The same with a signed input. *)
Definition signed_input_document : pyval :=
  document "0x09" [PStr "-0x2a"; PStr "0x07"; PStr "0x0b"; PStr "0x0c"].

(** A world without state: a prover that writes [doc], a node that mines
    the transaction and answers the read-only call with [answer]. *)
Module Stub.

Definition container (w : unit) : result string * unit := (Ok "zokrates", w).

Definition done : CompletedProcess := mkCompletedProcess 0 EmptyString EmptyString.

Definition compute_witness (name : string) (params : list Z) (w : unit)
  : result CompletedProcess * unit := (Ok done, w).

Definition cat_proof (name : string) (w : unit)
  : result CompletedProcess * unit := (Ok done, w).

Definition loads (doc : pyval) (text : string) : result pyval := Ok doc.

Definition open (url address : string) (w : unit) : result unit * unit :=
  (Ok tt, w).

Definition transact (key : string) (p : sol_proof) (i : list Z) (w : unit)
  : result unit * unit := (Ok tt, w).

Definition call (answer : result bool) (p : sol_proof) (i : list Z) (w : unit)
  : result bool * unit := (answer, w).

Definition start : state unit := mkState tt [].

Definition verify (answer : result bool) (inputs : Inputs.t) (proof : Proof.t)
  : M unit bool :=
  Contract_verify open transact (call answer) inputs proof
    "key" "verifier" "url".

Definition run (doc : pyval) (answer : result bool) (stats : Stats.t)
  : M unit unit :=
  main container compute_witness cat_proof (loads doc)
       open transact (call answer) stats "key" "verifier" "url".

End Stub.


(** ** More of the interpreter: text, truth, decimal numerals *)

Module PyText.

(** [c.isspace()] on the code points 0..255: the white space that
    [str.strip()] and [str.split()] cut at. *)
Definition isspace (c : ascii) : bool :=
  let n := PyStr.ord c in
  ((9 <=? n) && (n <=? 13)) || ((28 <=? n) && (n <=? 32))
  || (n =? 133) || (n =? 160).

Fixpoint lstrip (s : string) : string :=
  match s with
  | String c s' => if isspace c then lstrip s' else s
  | EmptyString => s
  end.

Fixpoint rstrip (s : string) : string :=
  match s with
  | String c s' =>
      match rstrip s' with
      | EmptyString => if isspace c then EmptyString else String c EmptyString
      | r => String c r
      end
  | EmptyString => s
  end.

(** [s.strip()] *)
Definition strip (s : string) : string := rstrip (lstrip s).

(** [c.lower()] on the code points 0..255: the letters A-Z and the
    accented capitals 192..222 (the sign 215 apart) move up by 32. *)
Definition lower_char (c : ascii) : ascii :=
  let n := PyStr.ord c in
  if ((65 <=? n) && (n <=? 90))
     || ((192 <=? n) && (n <=? 222) && negb (n =? 215))
  then ascii_of_N (Z.to_N (n + 32))
  else c.

(** [s.lower()] *)
Fixpoint lower (s : string) : string :=
  match s with
  | String c s' => String (lower_char c) (lower s')
  | EmptyString => s
  end.

(** [sub in s] *)
Fixpoint contains (sub s : string) : bool :=
  String.prefix sub s
  || match s with
     | String _ s' => contains sub s'
     | EmptyString => false
     end.

(** [s.split(sep)] with a separator of one character: the pieces between
    the separators, empty pieces kept. *)
Fixpoint split_char (sep : ascii) (s : string) : list string :=
  match s with
  | EmptyString => [EmptyString]
  | String c s' =>
      if Ascii.eqb c sep then EmptyString :: split_char sep s'
      else match split_char sep s' with
           | piece :: pieces => String c piece :: pieces
           | [] => [String c EmptyString]
           end
  end.

(** [s.split()]: the words between runs of white space. *)
Fixpoint split (s : string) : list string :=
  match s with
  | EmptyString => []
  | String c s' =>
      if isspace c then split s'
      else match s' with
           | EmptyString => [String c EmptyString]
           | String c' _ =>
               if isspace c' then String c EmptyString :: split s'
               else match split s' with
                    | word :: words => String c word :: words
                    | [] => [String c EmptyString]
                    end
           end
  end.

(** [l[-1]] *)
Fixpoint last_item {A : Type} (l : list A) : result A :=
  match l with
  | [] => Raise IndexError
  | [x] => Ok x
  | _ :: l' => last_item l'
  end.

(** [sep.join(l)] *)
Fixpoint join (sep : string) (l : list string) : string :=
  match l with
  | [] => EmptyString
  | [x] => x
  | x :: l' => (x ++ sep ++ join sep l')%string
  end.

(** [str(z)] of an [int]: the decimal numeral, [-] before a negative one. *)
Definition str_int (z : Z) : string :=
  DecimalString.NilZero.string_of_int (Z.to_int z).

(** The truth value of a value of the document. *)
Definition truthy (v : pyval) : bool :=
  match v with
  | PNone => false
  | PBool b => b
  | PInt z => negb (z =? 0)
  | PStr s => negb (String.eqb s EmptyString)
  | PList l => match l with [] => false | _ => true end
  | PDict d => match d with [] => false | _ => true end
  end.

(** [v is not None] *)
Definition is_not_None (v : pyval) : bool :=
  match v with PNone => false | _ => true end.

End PyText.

(** ** The text side of [Docker] and one expression of [main] *)

Definition newline : ascii := ascii_of_nat 10.

Definition no_container : string :=
  "❌ No running ZoKrates container found. Start ZoKrates first!".

(** The [for] loop of [get_zokrates_container_name] (lines 207-211). *)
Fixpoint first_zokrates_line (containers : list string) : result string :=
  match containers with
  | [] => Raise (RuntimeError no_container)
  | line :: rest =>
      if PyText.contains "zokrates" (PyText.lower line)
      then PyText.last_item (PyText.split line)
      else first_zokrates_line rest
  end.

(** Lines 204-211: the container name read off the result of [docker ps]. *)
Definition container_name_of (completed : CompletedProcess) : result string :=
  if negb (returncode completed =? 0)
     || negb (PyText.truthy (PStr (PyText.strip (stdout completed))))
  then Raise (RuntimeError no_container)
  else first_zokrates_line
         (PyText.split_char newline (PyText.strip (stdout completed))).

Definition cmd_ps : list string := ["docker"; "ps"].

(** Lines 216-224: the command of [run_compute_witness]. *)
Definition cmd_compute_witness (container_name : string) (params : list Z)
  : list string :=
  [ "docker"; "exec"; "-it"; container_name; "bash"; "-c";
    ("cd /home/zokrates/krates && zokrates compute-witness -a "
     ++ PyText.join " " (map PyText.str_int params)
     ++ " && zokrates generate-proof")%string ].

(** Line 236: the command of [get_results]. *)
Definition cmd_cat_proof (container_name : string) : list string :=
  [ "docker"; "exec"; "-it"; container_name; "bash"; "-c";
    "cd /home/zokrates/krates && cat proof.json" ].

Section Subprocess.

Variable world : Type.

(** [subprocess.run(cmd, capture_output=True, text=True)] *)
Variable subprocess_run :
  list string -> world -> result CompletedProcess * world.

(** [Docker.get_zokrates_container_name()] (lines 202-211) *)
Definition Docker_get_zokrates_container_name (w : world)
  : result string * world :=
  match subprocess_run cmd_ps w with
  | (Ok completed, w') => (container_name_of completed, w')
  | (Raise e, w') => (Raise e, w')
  end.

Variable json_loads : string -> result pyval.
Variable open_contract : string -> string -> world -> result unit * world.
Variable transact_verifyTx :
  string -> sol_proof -> list Z -> world -> result unit * world.
Variable call_verifyTx : sol_proof -> list Z -> world -> result bool * world.

(** [main] with the three uses of [subprocess.run] of [Docker] in place of
    the oracles of the container and of the two commands. *)
Definition main_docker (stats : Stats.t)
    (private_key verifier_contract_address ethereum_rpc_url : string)
  : M world unit :=
  main Docker_get_zokrates_container_name
       (fun container_name params =>
          subprocess_run (cmd_compute_witness container_name params))
       (fun container_name => subprocess_run (cmd_cat_proof container_name))
       json_loads open_contract transact_verifyTx call_verifyTx
       stats private_key verifier_contract_address ethereum_rpc_url.

End Subprocess.

Arguments Docker_get_zokrates_container_name {world} _ _.
Arguments main_docker {world} _ _ _ _ _ _ _ _ _.

(** Line 335 of [main]:
    [result[0]["SourceCode"] is not None if result else False], with
    [result = contract_details["result"]]. *)
Definition main_has_source_code (contract_details : pyval) : result bool :=
  (test <- PyVal.getitem_key contract_details "result" ;;
   if PyText.truthy test then
     result <- PyVal.getitem_key contract_details "result" ;;
     first <- PyVal.getitem_idx result 0 ;;
     source <- PyVal.getitem_key first "SourceCode" ;;
     Ok (PyText.is_not_None source)
   else Ok false)%result.

(** The function of the docstring of [split_address]:
    [splitAddress(address) returns (uint128, uint128)], on the number of
    the address. *)
Definition splitAddress (_addr : Z) : Z * Z :=
  let addrInt := _addr mod 2 ^ 160 in
  let addressPart1 := Z.shiftr addrInt 80 mod 2 ^ 128 in
  let addressPart2 := Z.land addrInt (Z.shiftl 1 80 - 1) mod 2 ^ 128 in
  (addressPart1, addressPart2).

(** A number of the prover's document: [0x] and hexadecimal digits. *)
Definition is_numeral (s : string) : bool :=
  Hex.all_digits s && negb (String.eqb s EmptyString).

Definition prefixed (s : string) : string := String "0" (String "x" s).



(** A word of a command line: not empty, and without a space. *)
Definition one_word (w : string) : Prop :=
  w <> EmptyString /\
  forall c, In c (list_ascii_of_string w) -> c <> " "%char.





(** A proof whose first field is no numeral. *)
Definition bad_proof : Proof.t :=
  Proof.mk (PList [PStr "zz"; PStr "0x0a"])
           (PList [PList [PStr "0x0b"; PStr "0x0c"];
                   PList [PStr "0x0d"; PStr "0x0e"]])
           (PList [PStr "0x0f"; PStr "0x10"]).

(** What [docker ps] prints with one container of the prover running. *)
Definition docker_listing : string :=
  ("CONTAINER ID   IMAGE               STATUS      NAMES"
   ++ String newline
        ("3f2a1b0c9d8e   zokrates/zokrates   Up 2 hours  eager_turing"
         ++ String newline EmptyString))%string.

(** A world whose [docker ps] prints [docker_listing] and whose other
    commands exit with [code]. *)
Definition docker_exits (code : Z) (cmd : list string) (w : unit)
  : result CompletedProcess * unit :=
  (Ok (mkCompletedProcess
         (if list_eq_dec string_dec cmd cmd_ps then 0 else code)
         docker_listing EmptyString), w).

(** ** The interpreter's reading of hexadecimal digits *)

Example int16_samples :
  PyInt.int16 "1f" = Ok 31 /\
  PyInt.int16 "0x1f" = Ok 31 /\
  PyInt.int16 "0X1F" = Ok 31 /\
  PyInt.int16 "0x_1" = Ok 1 /\
  PyInt.int16 "0x__1" = Raise ValueError /\
  PyInt.int16 "_1" = Raise ValueError /\
  PyInt.int16 "1_" = Raise ValueError /\
  PyInt.int16 "1__2" = Raise ValueError /\
  PyInt.int16 "1_2" = Ok 18 /\
  PyInt.int16 "+0x_f_f" = Ok 255 /\
  PyInt.int16 "-0x10" = Ok (-16) /\
  PyInt.int16 " 0x1 " = Ok 1 /\
  PyInt.int16 "0b1" = Ok 177 /\
  PyInt.int16 "0x" = Raise ValueError /\
  PyInt.int16 "- 1" = Raise ValueError /\
  PyInt.int16 "1 2" = Raise ValueError /\
  PyInt.int16 EmptyString = Raise ValueError /\
  PyInt.int16 "zz" = Raise ValueError.
Proof. repeat split; reflexivity. Qed.

Ltac each_ascii c :=
  destruct c as [[] [] [] [] [] [] [] []].

(** One step of the error monad, leaving arithmetic folded. *)
Ltac rstep := cbv beta iota delta [rbind].


(** On a hexadecimal digit the interpreter's table gives the digit's value;
    such a character is neither white space, nor an underscore, nor a sign,
    nor the [x] of a prefix. *)
Lemma digit_table (c : ascii) (d : Z) :
  Hex.digit_value c = Some d ->
  PyInt.PyLong_DigitValue c = d /\ 0 <= d < 16 /\
  PyInt.is_underscore c = false /\ PyInt.Py_ISSPACE c = false /\
  c <> "+"%char /\ c <> "-"%char /\
  (PyStr.ord c =? 120) = false /\ (PyStr.ord c =? 88) = false.
Proof.
  each_ascii c; cbn; intros E; try discriminate E;
    injection E as <-; repeat split; try lia; discriminate.
Qed.

Lemma is_digit_value (c : ascii) :
  Hex.is_digit c = true -> Hex.digit_value c = Some (Hex.digit c).
Proof.
  unfold Hex.is_digit, Hex.digit.
  destruct (Hex.digit_value c); [reflexivity | discriminate].
Qed.

Lemma digit_range (c : ascii) : 0 <= Hex.digit c < 16.
Proof.
  unfold Hex.digit. destruct (Hex.digit_value c) eqn:E; [| lia].
  apply digit_table in E. lia.
Qed.

Lemma lower_is_digit (c : ascii) :
  Hex.is_lower_digit c = true -> Hex.is_digit c = true.
Proof. each_ascii c; cbn; intros E; (discriminate E || reflexivity). Qed.

Lemma all_lower_all_digits (s : string) :
  Hex.all_lower_digits s = true -> Hex.all_digits s = true.
Proof.
  induction s as [| c s IH]; cbn; [reflexivity |].
  intros H. apply andb_true_iff in H as [Hc Hs].
  rewrite (lower_is_digit _ Hc), (IH Hs). reflexivity.
Qed.

(** The scanning loop reads a string of digits to its end. *)
Lemma scan_all_digits (s : string) (acc : Z) :
  Hex.all_digits s = true ->
  PyInt.scan_digits 16 s false acc = Some (Hex.value_from acc s, EmptyString).
Proof.
  revert acc. induction s as [| c s IH]; intros acc H; cbn in *.
  - reflexivity.
  - apply andb_true_iff in H as [Hc Hs].
    apply is_digit_value in Hc.
    destruct (digit_table _ _ Hc) as (Hv & Hr & Hu & _).
    rewrite Hu, Hv.
    replace (Hex.digit c <? 16) with true by (symmetry; apply Z.ltb_lt; lia).
    apply IH, Hs.
Qed.

(** [int(s, 16)] of a non-empty string of hexadecimal digits is its value
    in base 16. *)
Lemma int16_digits (s : string) :
  Hex.all_digits s = true -> s <> EmptyString ->
  PyInt.int16 s = Ok (Hex.value s).
Proof.
  intros H Hne. destruct s as [| c s]; [contradiction |].
  pose proof H as H0. cbn in H0. apply andb_true_iff in H0 as [Hc Hs].
  apply is_digit_value in Hc.
  destruct (digit_table _ _ Hc) as (Hv & Hr & Hu & Hsp & Hplus & Hminus & _).
  unfold PyInt.int16, PyInt.PyLong_FromString16.
  assert (Hskip : PyInt.skip_spaces (String c s) = String c s)
    by (cbn; rewrite Hsp; reflexivity).
  rewrite Hskip.
  assert (Hsign : PyInt.strip_sign (String c s) = (1, String c s)).
  { unfold PyInt.strip_sign.
    destruct (ascii_dec c "+") as [-> | ?]; [contradiction |].
    destruct (ascii_dec c "-") as [-> | ?]; [contradiction |].
    clear - n n0. each_ascii c; try reflexivity; contradiction. }
  rewrite Hsign.
  assert (Hpre : PyInt.strip_prefix16 (String c s) = String c s).
  { unfold PyInt.strip_prefix16.
    destruct s as [| c' s'].
    - clear. each_ascii c; reflexivity.
    - cbn in Hs. apply andb_true_iff in Hs as [Hc' _].
      apply is_digit_value in Hc'.
      destruct (digit_table _ _ Hc') as (_ & _ & _ & _ & _ & _ & Hx & HX).
      rewrite Hx, HX. cbn.
      clear. each_ascii c; reflexivity. }
  rewrite Hpre.
  unfold PyInt.long_from_string_base.
  rewrite Hu, Hv.
  replace (Hex.digit c <? 16) with true by (symmetry; apply Z.ltb_lt; lia).
  rewrite (scan_all_digits _ 0 H).
  change (PyInt.all_spaces EmptyString) with true. cbv iota.
  rewrite Z.mul_1_l. reflexivity.
Qed.

(** ** Base-16 values and slices *)

Lemma value_from_shift (s : string) (acc : Z) :
  Hex.value_from acc s = acc * 16 ^ Z.of_nat (String.length s) + Hex.value s.
Proof.
  unfold Hex.value. revert acc.
  induction s as [| c s IH]; intros acc.
  - cbn. lia.
  - cbn [Hex.value_from String.length].
    rewrite (IH (acc * 16 + Hex.digit c)), (IH (0 * 16 + Hex.digit c)).
    rewrite Nat2Z.inj_succ, Z.pow_succ_r by lia. ring.
Qed.

Lemma value_cons (c : ascii) (s : string) :
  Hex.value (String c s)
  = Hex.digit c * 16 ^ Z.of_nat (String.length s) + Hex.value s.
Proof.
  unfold Hex.value at 1. cbn [Hex.value_from].
  rewrite value_from_shift. ring.
Qed.

Lemma value_bound (s : string) :
  0 <= Hex.value s < 16 ^ Z.of_nat (String.length s).
Proof.
  induction s as [| c s IH].
  - cbn. lia.
  - rewrite value_cons. cbn [String.length].
    rewrite Nat2Z.inj_succ, Z.pow_succ_r by lia.
    pose proof (digit_range c). nia.
Qed.

Lemma value_app (s1 s2 : string) :
  Hex.value (s1 ++ s2)%string
  = Hex.value s1 * 16 ^ Z.of_nat (String.length s2) + Hex.value s2.
Proof.
  unfold Hex.value at 1 2. generalize 0.
  induction s1 as [| c s1 IH]; intros acc; cbn [append Hex.value_from].
  - apply value_from_shift.
  - apply IH.
Qed.

Lemma slice_app (m : nat) (s : string) :
  (PyStr.slice_to m s ++ PyStr.slice_from m s)%string = s.
Proof.
  revert s. induction m as [| m IH]; intros [| c s]; cbn; try reflexivity.
  f_equal. apply IH.
Qed.

Lemma slice_to_length (m : nat) (s : string) :
  (m <= String.length s)%nat -> String.length (PyStr.slice_to m s) = m.
Proof.
  revert s. induction m as [| m IH]; intros [| c s]; cbn; intros H;
    try reflexivity; try lia.
  f_equal. apply IH. lia.
Qed.

Lemma slice_from_length (m : nat) (s : string) :
  String.length (PyStr.slice_from m s) = (String.length s - m)%nat.
Proof.
  revert s. induction m as [| m IH]; intros [| c s]; cbn; try reflexivity.
  apply IH.
Qed.

Lemma slice_all_digits (m : nat) (s : string) :
  Hex.all_digits s = true ->
  Hex.all_digits (PyStr.slice_to m s) = true /\
  Hex.all_digits (PyStr.slice_from m s) = true.
Proof.
  revert s. induction m as [| m IH]; intros [| c s]; cbn; intros H;
    try (split; (reflexivity || assumption)).
  apply andb_true_iff in H as [Hc Hs].
  destruct (IH s Hs) as [H1 H2]. rewrite Hc, H1. split; [reflexivity | exact H2].
Qed.

Lemma slice_all_lower (m : nat) (s : string) :
  Hex.all_lower_digits s = true ->
  Hex.all_lower_digits (PyStr.slice_to m s) = true /\
  Hex.all_lower_digits (PyStr.slice_from m s) = true.
Proof.
  revert s. induction m as [| m IH]; intros [| c s]; cbn; intros H;
    try (split; (reflexivity || assumption)).
  apply andb_true_iff in H as [Hc Hs].
  destruct (IH s Hs) as [H1 H2]. rewrite Hc, H1. split; [reflexivity | exact H2].
Qed.

Lemma length_zero_empty (s : string) : String.length s = 0%nat -> s = EmptyString.
Proof. destruct s; [reflexivity | discriminate]. Qed.

(** Both halves of a string of at least two characters are non-empty. *)
Lemma halves_nonempty (s : string) :
  (2 <= String.length s)%nat ->
  PyStr.slice_to (String.length s / 2) s <> EmptyString /\
  PyStr.slice_from (String.length s / 2) s <> EmptyString.
Proof.
  intros H.
  pose proof (Nat.div_mod_eq (String.length s) 2) as Hdm.
  pose proof (Nat.mod_upper_bound (String.length s) 2 ltac:(lia)) as Hub.
  split; intros E; apply (f_equal String.length) in E;
    change (String.length EmptyString) with 0%nat in E.
  - rewrite slice_to_length in E; lia.
  - rewrite slice_from_length in E. lia.
Qed.

(** The split of an address of hexadecimal digits, of any length from 2. *)
Lemma split_address_digits (stats : Stats.t) :
  let s := Stats.contract_address stats in
  let m := (String.length s / 2)%nat in
  Hex.all_digits s = true -> (2 <= String.length s)%nat ->
  Stats.split_address stats
  = Ok (Hex.value (PyStr.slice_to m s), Hex.value (PyStr.slice_from m s)).
Proof.
  intros s m Hd HL. unfold Stats.split_address, PyStr.len. fold s. fold m.
  destruct (slice_all_digits m s Hd) as [H1 H2].
  destruct (halves_nonempty s HL) as [N1 N2]. fold m in N1, N2.
  rewrite (int16_digits _ H1 N1), (int16_digits _ H2 N2). reflexivity.
Qed.

Lemma lower_digit_canonical (c : ascii) :
  Hex.is_lower_digit c = true -> c = Hex.lower_digit_char (Hex.digit c).
Proof. each_ascii c; cbn; intros E; (discriminate E || reflexivity). Qed.

(** Lowercase numerals of one length with one value are one string. *)
Lemma value_lower_injective (s t : string) :
  Hex.all_lower_digits s = true -> Hex.all_lower_digits t = true ->
  String.length s = String.length t ->
  Hex.value s = Hex.value t -> s = t.
Proof.
  revert t. induction s as [| c s IH]; intros [| c' t]; cbn [String.length];
    intros Hs Ht HL HV; try discriminate HL; [reflexivity |].
  cbn in Hs, Ht.
  apply andb_true_iff in Hs as [Hc Hs]. apply andb_true_iff in Ht as [Hc' Ht].
  injection HL as HL.
  rewrite !value_cons, HL in HV.
  pose proof (value_bound s) as Bs. pose proof (value_bound t) as Bt.
  rewrite HL in Bs.
  pose proof (digit_range c) as Dc. pose proof (digit_range c') as Dc'.
  assert (Hd : Hex.digit c = Hex.digit c') by nia.
  assert (Hv : Hex.value s = Hex.value t) by (rewrite Hd in HV; lia).
  rewrite (lower_digit_canonical _ Hc), (lower_digit_canonical _ Hc'), Hd.
  f_equal. apply IH; assumption.
Qed.

Lemma parseHex_digits (s : string) :
  Hex.all_digits s = true -> s <> EmptyString ->
  Hex.parseHex s = Some (Hex.value s).
Proof.
  intros H N. destruct s as [| c s]; [contradiction |].
  unfold Hex.parseHex. rewrite H. reflexivity.
Qed.

Lemma even_half (n : nat) :
  Nat.even n = true -> (n = 2 * (n / 2))%nat.
Proof.
  intros H. apply Nat.even_spec in H as [k ->].
  rewrite (Nat.mul_comm 2 k), Nat.div_mul by lia. lia.
Qed.

(** ** The address split *)

(** C2. On a lowercase hexadecimal address [s] of even length [L] the split
    is the pair of [parseHex] on [s[0:L/2]] and on [s[L/2:L]] (failing where
    [parseHex] has nothing to read); on a 40-digit address it is
    [(s[0:20], s[20:40])] read in base 16. *)
Theorem split_address_halves (stats : Stats.t) :
  let s := Stats.contract_address stats in
  let L := String.length s in
  let middle := (L / 2)%nat in
  Hex.all_lower_digits s = true ->
  Nat.even L = true ->
  Stats.split_address stats
  = match Hex.parseHex (PyStr.slice_to middle s),
          Hex.parseHex (PyStr.slice_from middle s) with
    | Some part1, Some part2 => Ok (part1, part2)
    | _, _ => Raise ValueError
    end
  /\ (L = 40%nat ->
      Stats.split_address stats
      = Ok (Hex.value (PyStr.slice_to 20 s), Hex.value (PyStr.slice_from 20 s))).
Proof.
  intros s L middle Hlow Heven.
  pose proof (all_lower_all_digits s Hlow) as Hd.
  assert (Hcases : L = 0%nat \/ (2 <= L)%nat).
  { pose proof (even_half L Heven). lia. }
  split.
  - destruct Hcases as [H0 | H2].
    + apply length_zero_empty in H0.
      unfold Stats.split_address, middle, L, PyStr.len. fold s.
      rewrite H0. reflexivity.
    + rewrite (split_address_digits stats Hd H2). fold s L middle.
      destruct (slice_all_digits middle s Hd) as [H1 H1'].
      destruct (halves_nonempty s H2) as [N1 N2]. fold L middle in N1, N2.
      rewrite (parseHex_digits _ H1 N1), (parseHex_digits _ H1' N2).
      reflexivity.
  - intros H40.
    assert (H2 : (2 <= String.length s)%nat) by (fold L; lia).
    rewrite (split_address_digits stats Hd H2). fold s L. rewrite H40.
    reflexivity.
Qed.

Lemma split_address_halves_witness :
  Stats.split_address (stats_of_address address40)
  = Ok (1033045308281255499112992, 462913640186184900746951).
Proof.
  destruct (split_address_halves (stats_of_address address40)) as [_ H];
    [reflexivity | reflexivity |].
  rewrite H; [vm_compute; reflexivity | reflexivity].
Defined.

(** C9. On hexadecimal digits of even length [L >= 2] the split succeeds
    and is an exact decomposition of the whole numeral:
    [part1 * 16^(L/2) + part2 = parseHex s] with [0 <= part2 < 16^(L/2)]. *)
Theorem split_address_lossless (stats : Stats.t) :
  let s := Stats.contract_address stats in
  let L := String.length s in
  Hex.all_digits s = true ->
  Nat.even L = true ->
  (2 <= L)%nat ->
  exists part1 part2 : Z,
    Stats.split_address stats = Ok (part1, part2) /\
    Hex.parseHex s = Some (part1 * 16 ^ Z.of_nat (L / 2) + part2) /\
    PyInt.int16 s = Ok (part1 * 16 ^ Z.of_nat (L / 2) + part2) /\
    0 <= part2 < 16 ^ Z.of_nat (L / 2).
Proof.
  intros s L Hd Heven H2.
  set (m := (L / 2)%nat).
  exists (Hex.value (PyStr.slice_to m s)), (Hex.value (PyStr.slice_from m s)).
  assert (Hlen : String.length (PyStr.slice_from m s) = m).
  { rewrite slice_from_length. fold L. pose proof (even_half L Heven).
    unfold m. lia. }
  assert (Hne : s <> EmptyString).
  { intros E. unfold L in H2. rewrite E in H2. cbn in H2. lia. }
  assert (Hval : Hex.value (PyStr.slice_to m s) * 16 ^ Z.of_nat m
                 + Hex.value (PyStr.slice_from m s) = Hex.value s).
  { rewrite <- (slice_app m s) at 3. rewrite value_app, Hlen. reflexivity. }
  repeat split.
  - apply (split_address_digits stats Hd H2).
  - rewrite Hval. apply parseHex_digits; assumption.
  - rewrite Hval. apply int16_digits; assumption.
  - apply value_bound.
  - pose proof (value_bound (PyStr.slice_from m s)) as B.
    rewrite Hlen in B. apply B.
Qed.

Lemma split_address_lossless_witness :
  exists part1 part2 : Z,
    Stats.split_address (stats_of_address "0123456789abCDEF")
    = Ok (part1, part2) /\
    Hex.parseHex "0123456789abCDEF" = Some (part1 * 16 ^ 8 + part2) /\
    PyInt.int16 "0123456789abCDEF" = Ok (part1 * 16 ^ 8 + part2) /\
    0 <= part2 < 16 ^ 8.
Proof.
  apply (split_address_lossless (stats_of_address "0123456789abCDEF"));
    [reflexivity | reflexivity | cbn; lia].
Defined.

Lemma int16_raises_ValueError (s : string) (e : exn) :
  PyInt.int16 s = Raise e -> e = ValueError.
Proof.
  unfold PyInt.int16. destruct (PyInt.PyLong_FromString16 s); intros H.
  - discriminate H.
  - injection H as <-. reflexivity.
Qed.

(** C10. The split validates no length: on hexadecimal digits of any length
    [L >= 2], odd or not, 40 or not, it returns
    [(parseHex s[0:L/2], parseHex s[L/2:L])] with [L/2] rounded down; it
    fails, with [ValueError], exactly when [int(_, 16)] refuses one of the
    two halves, as on the empty string or on a half holding a character that
    is no digit. *)
Theorem split_address_no_length_check (stats : Stats.t) :
  let s := Stats.contract_address stats in
  let middle := (String.length s / 2)%nat in
  (Hex.all_digits s = true -> (2 <= String.length s)%nat ->
   Hex.parseHex (PyStr.slice_to middle s)
   = Some (Hex.value (PyStr.slice_to middle s)) /\
   Hex.parseHex (PyStr.slice_from middle s)
   = Some (Hex.value (PyStr.slice_from middle s)) /\
   Stats.split_address stats
   = Ok (Hex.value (PyStr.slice_to middle s),
         Hex.value (PyStr.slice_from middle s)))
  /\ (forall e : exn, Stats.split_address stats = Raise e ->
      e = ValueError /\
      (PyInt.int16 (PyStr.slice_to middle s) = Raise ValueError \/
       PyInt.int16 (PyStr.slice_from middle s) = Raise ValueError))
  /\ (PyInt.int16 (PyStr.slice_to middle s) = Raise ValueError \/
      PyInt.int16 (PyStr.slice_from middle s) = Raise ValueError ->
      Stats.split_address stats = Raise ValueError)
  /\ Stats.split_address (stats_of_address EmptyString) = Raise ValueError
  /\ Stats.split_address (stats_of_address "12g4") = Raise ValueError.
Proof.
  intros s middle. repeat split.
  - destruct (slice_all_digits middle s H) as [H1 _].
    destruct (halves_nonempty s H0) as [N1 _].
    apply parseHex_digits; assumption.
  - destruct (slice_all_digits middle s H) as [_ H2].
    destruct (halves_nonempty s H0) as [_ N2].
    apply parseHex_digits; assumption.
  - apply (split_address_digits stats H H0).
  - revert H. unfold Stats.split_address, PyStr.len. fold s middle.
    destruct (PyInt.int16 (PyStr.slice_to middle s)) eqn:E1; rstep.
    + destruct (PyInt.int16 (PyStr.slice_from middle s)) eqn:E2; rstep.
      * discriminate.
      * intros H; injection H as <-. eapply int16_raises_ValueError, E2.
    + intros H; injection H as <-. eapply int16_raises_ValueError, E1.
  - revert H. unfold Stats.split_address, PyStr.len. fold s middle.
    destruct (PyInt.int16 (PyStr.slice_to middle s)) eqn:E1; rstep.
    + destruct (PyInt.int16 (PyStr.slice_from middle s)) eqn:E2; rstep.
      * discriminate.
      * intros H. right. rewrite (int16_raises_ValueError _ _ E2). reflexivity.
    + intros H. left. rewrite (int16_raises_ValueError _ _ E1). reflexivity.
  - unfold Stats.split_address, PyStr.len. fold s middle.
    intros [E | E].
    + rewrite E. reflexivity.
    + rewrite E.
      destruct (PyInt.int16 (PyStr.slice_to middle s)) eqn:E1; rstep.
      * reflexivity.
      * rewrite (int16_raises_ValueError _ _ E1). reflexivity.
Qed.

Lemma split_address_no_length_check_witness :
  Stats.split_address (stats_of_address "abc") = Ok (10, 188) /\
  Stats.split_address (stats_of_address "0123456789abcdef01234567")
  = Ok (Hex.value "0123456789ab", Hex.value "cdef01234567").
Proof.
  split.
  - apply (split_address_no_length_check (stats_of_address "abc"));
      [reflexivity | cbn; lia].
  - apply (split_address_no_length_check
             (stats_of_address "0123456789abcdef01234567"));
      [reflexivity | cbn; lia].
Defined.

(** The pair returned by the split determines the value of a 40-digit
    address, in whatever case its digits are written. *)
Lemma split_address_determines_value (stats1 stats2 : Stats.t) :
  let s := Stats.contract_address stats1 in
  let t := Stats.contract_address stats2 in
  Hex.all_digits s = true -> Hex.all_digits t = true ->
  String.length s = 40%nat -> String.length t = 40%nat ->
  Stats.split_address stats1 = Stats.split_address stats2 ->
  Hex.value s = Hex.value t.
Proof.
  intros s t Hs Ht Ls Lt.
  rewrite (split_address_digits stats1 Hs) by (fold s; lia).
  rewrite (split_address_digits stats2 Ht) by (fold t; lia).
  fold s t. rewrite Ls, Lt. change (40 / 2)%nat with 20%nat.
  intros E. injection E as E1 E2.
  change (Hex.value (PyStr.slice_to 20 s) = Hex.value (PyStr.slice_to 20 t))
    in E1.
  change (Hex.value (PyStr.slice_from 20 s) = Hex.value (PyStr.slice_from 20 t))
    in E2.
  rewrite <- (slice_app 20 s), <- (slice_app 20 t), !value_app.
  rewrite !slice_from_length, Ls, Lt, E1, E2. reflexivity.
Qed.

(** C8. Two distinct 40-digit addresses (lowercase hexadecimal strings)
    never have the same split. *)
Theorem split_address_injective (stats1 stats2 : Stats.t) :
  Hex.is_address40 (Stats.contract_address stats1) = true ->
  Hex.is_address40 (Stats.contract_address stats2) = true ->
  Stats.contract_address stats1 <> Stats.contract_address stats2 ->
  Stats.split_address stats1 <> Stats.split_address stats2.
Proof.
  set (s := Stats.contract_address stats1).
  set (t := Stats.contract_address stats2).
  unfold Hex.is_address40. intros Hs Ht Hne E. apply Hne.
  apply andb_true_iff in Hs as [Ls Hs]. apply andb_true_iff in Ht as [Lt Ht].
  apply Nat.eqb_eq in Ls, Lt.
  rewrite (split_address_digits stats1 (all_lower_all_digits _ Hs)) in E
    by (fold s; lia).
  rewrite (split_address_digits stats2 (all_lower_all_digits _ Ht)) in E
    by (fold t; lia).
  fold s t in E. rewrite Ls, Lt in E. change (40 / 2)%nat with 20%nat in E.
  injection E as E1 E2.
  destruct (slice_all_lower 20 s Hs) as [Hs1 Hs2].
  destruct (slice_all_lower 20 t Ht) as [Ht1 Ht2].
  rewrite <- (slice_app 20 s), <- (slice_app 20 t). f_equal.
  - apply value_lower_injective; try assumption.
    rewrite !slice_to_length; lia.
  - apply value_lower_injective; try assumption.
    rewrite !slice_from_length; lia.
Qed.

Lemma split_address_injective_witness :
  Stats.split_address (stats_of_address address40)
  <> Stats.split_address (stats_of_address address40').
Proof.
  apply split_address_injective;
    [reflexivity | reflexivity | discriminate].
Defined.

(** Strings that differ in the case of a digit are different strings with
    one split: the injectivity above is over lowercase addresses. *)
Example split_address_ignores_case :
  Stats.split_address (stats_of_address "DAC17F958D2EE523A2206206994597C13D831EC7")
  = Stats.split_address (stats_of_address address40).
Proof. vm_compute. reflexivity. Qed.

(** ** The prover input vector *)

Lemma int_of_bool_01 (b : bool) :
  Stats.int_of_bool b = 0 \/ Stats.int_of_bool b = 1.
Proof. destruct b; [right | left]; reflexivity. Qed.

(** C4. When the address splits, the encoder returns the 8 numbers
    [address_part1, address_part2, days_ago_added, is_active (0 or 1),
    volume, market_cap, total_supply, has_source_code (0 or 1)], in this
    order; the fact set of the scenario encodes to
    [0, 1, 10, 1, 500, 2000, 1000, 1]. *)
Theorem to_zkvm_input_vector :
  (forall (stats : Stats.t) (address_part1 address_part2 : Z),
      Stats.split_address stats = Ok (address_part1, address_part2) ->
      Stats.to_zkvm_input stats
      = Ok [ address_part1;
             address_part2;
             Stats.days_ago_added stats;
             (if Stats.is_active stats then 1 else 0);
             Stats.volume stats;
             Stats.market_cap stats;
             Stats.total_supply stats;
             (if Stats.has_source_code stats then 1 else 0) ])
  /\ (forall name symbol : string,
         Stats.to_zkvm_input (scenario_stats name symbol)
         = Ok [0; 1; 10; 1; 500; 2000; 1000; 1]).
Proof.
  split.
  - intros stats p1 p2 H. unfold Stats.to_zkvm_input. rewrite H. reflexivity.
  - intros name symbol. reflexivity.
Qed.

Lemma to_zkvm_input_vector_witness :
  Stats.to_zkvm_input (Stats.mk "ff00" true 7 "n" "s" 3 false 5 6)
  = Ok [255; 0; 3; 0; 5; 6; 7; 1].
Proof.
  apply (proj1 to_zkvm_input_vector
           (Stats.mk "ff00" true 7 "n" "s" 3 false 5 6) 255 0).
  reflexivity.
Defined.

(** The encoder raises what the split raises. *)
Lemma to_zkvm_input_raises (stats : Stats.t) (e : exn) :
  Stats.split_address stats = Raise e -> Stats.to_zkvm_input stats = Raise e.
Proof. intros H. unfold Stats.to_zkvm_input. rewrite H. reflexivity. Qed.

(** C3, as stated, fails: the 38-digit address of the scenario and a 3-digit
    address are both encoded to a vector. *)
Lemma to_zkvm_input_accepts_other_lengths :
  String.length (Stats.contract_address (scenario_stats "n" "s")) = 38%nat /\
  Stats.to_zkvm_input (scenario_stats "n" "s")
  = Ok [0; 1; 10; 1; 500; 2000; 1000; 1] /\
  String.length (Stats.contract_address (stats_of_address "abc")) = 3%nat /\
  Stats.to_zkvm_input (stats_of_address "abc") = Ok [10; 188; 0; 0; 0; 0; 0; 0].
Proof. repeat split; reflexivity. Qed.

(** C3, amended. The encoder checks no length.  On an address of
    hexadecimal digits of length [L >= 2], odd or not, 40 or not, it returns
    the vector that starts with the values of [s[0:L/2]] and [s[L/2:L]]
    ([L/2] rounded down), every digit being read once; on such an address of
    length 0 or 1 it raises [ValueError], the first half being empty. *)
Theorem to_zkvm_input_any_length (stats : Stats.t) :
  let s := Stats.contract_address stats in
  let middle := (String.length s / 2)%nat in
  Hex.all_digits s = true ->
  ((String.length s < 2)%nat -> Stats.to_zkvm_input stats = Raise ValueError)
  /\ ((2 <= String.length s)%nat ->
      Stats.to_zkvm_input stats
      = Ok [ Hex.value (PyStr.slice_to middle s);
             Hex.value (PyStr.slice_from middle s);
             Stats.days_ago_added stats;
             Stats.int_of_bool (Stats.is_active stats);
             Stats.volume stats;
             Stats.market_cap stats;
             Stats.total_supply stats;
             Stats.int_of_bool (Stats.has_source_code stats) ]
      /\ (PyStr.slice_to middle s ++ PyStr.slice_from middle s)%string = s).
Proof.
  intros s middle Hd. split.
  - intros HL. apply to_zkvm_input_raises.
    unfold Stats.split_address, PyStr.len. fold s.
    destruct s as [| c [| c' s']]; [reflexivity | reflexivity |].
    cbn in HL. lia.
  - intros HL. split; [| apply slice_app].
    unfold Stats.to_zkvm_input.
    rewrite (split_address_digits stats Hd HL). reflexivity.
Qed.

Lemma to_zkvm_input_any_length_witness :
  Stats.to_zkvm_input (stats_of_address "a") = Raise ValueError /\
  Stats.to_zkvm_input (stats_of_address "abc")
  = Ok [ Hex.value "a"; Hex.value "bc"; 0; 0; 0; 0; 0; 0 ].
Proof.
  split.
  - apply (to_zkvm_input_any_length (stats_of_address "a"));
      [reflexivity | cbn; lia].
  - apply (to_zkvm_input_any_length (stats_of_address "abc"));
      [reflexivity | cbn; lia].
Defined.

(** ** Decoding the prover's document and laying out the proof *)

(** A chain of [int(_, 16)] raises [ValueError] unless every link succeeds:
    splits on each link of the goal [all succeed = false -> chain = Raise]. *)
Ltac chain_cases :=
  rstep;
  repeat match goal with
         | |- _ -> match PyInt.int16 ?s with _ => _ end = _ =>
             let E := fresh "E" in
             destruct (PyInt.int16 s) eqn:E;
             [ | intros _; apply int16_raises_ValueError in E; rewrite E;
                 reflexivity ]
         end;
  cbn; intros H; discriminate H.

Section Layout.

Variables a0 a1 b00 b01 b10 b11 c0 c1 : string.

Let proof_of_strings : Proof.t :=
  Proof.mk (PList [PStr a0; PStr a1])
           (PList [PList [PStr b00; PStr b01]; PList [PStr b10; PStr b11]])
           (PList [PStr c0; PStr c1]).

(** The layout is read field by field, in the order a, b, c. *)
Lemma to_solidity_strings :
  Proof.to_solidity proof_of_strings
  = (va0 <- PyInt.int16 a0 ;; va1 <- PyInt.int16 a1 ;;
     vb00 <- PyInt.int16 b00 ;; vb01 <- PyInt.int16 b01 ;;
     vb10 <- PyInt.int16 b10 ;; vb11 <- PyInt.int16 b11 ;;
     vc0 <- PyInt.int16 c0 ;; vc1 <- PyInt.int16 c1 ;;
     Ok ((va0, va1), [[vb00; vb01]; [vb10; vb11]], (vc0, vc1)))%result.
Proof. reflexivity. Qed.

Lemma to_solidity_strings_ok (va0 va1 vb00 vb01 vb10 vb11 vc0 vc1 : Z) :
  PyInt.int16 a0 = Ok va0 -> PyInt.int16 a1 = Ok va1 ->
  PyInt.int16 b00 = Ok vb00 -> PyInt.int16 b01 = Ok vb01 ->
  PyInt.int16 b10 = Ok vb10 -> PyInt.int16 b11 = Ok vb11 ->
  PyInt.int16 c0 = Ok vc0 -> PyInt.int16 c1 = Ok vc1 ->
  Proof.to_solidity proof_of_strings
  = Ok ((va0, va1), [[vb00; vb01]; [vb10; vb11]], (vc0, vc1)).
Proof.
  intros Ha0 Ha1 Hb00 Hb01 Hb10 Hb11 Hc0 Hc1.
  rewrite to_solidity_strings, Ha0, Ha1, Hb00, Hb01, Hb10, Hb11, Hc0, Hc1.
  reflexivity.
Qed.

Lemma to_solidity_strings_raise :
  succeeds (PyInt.int16 a0) && succeeds (PyInt.int16 a1)
  && succeeds (PyInt.int16 b00) && succeeds (PyInt.int16 b01)
  && succeeds (PyInt.int16 b10) && succeeds (PyInt.int16 b11)
  && succeeds (PyInt.int16 c0) && succeeds (PyInt.int16 c1) = false ->
  Proof.to_solidity proof_of_strings = Raise ValueError.
Proof.
  rewrite to_solidity_strings. chain_cases.
Qed.

End Layout.

Section Document.

Variables (results curve proof a b c scheme : pyval).
Variables (s0 s1 s2 s3 : string) (rest : list pyval).

Hypothesis Hcurve : PyVal.getitem_key results "curve" = Ok curve.
Hypothesis Hproof : PyVal.getitem_key results "proof" = Ok proof.
Hypothesis Ha : PyVal.getitem_key proof "a" = Ok a.
Hypothesis Hb : PyVal.getitem_key proof "b" = Ok b.
Hypothesis Hc : PyVal.getitem_key proof "c" = Ok c.
Hypothesis Hscheme : PyVal.getitem_key results "scheme" = Ok scheme.
Hypothesis Hinputs :
  PyVal.getitem_key results "inputs"
  = Ok (PList (PStr s0 :: PStr s1 :: PStr s2 :: PStr s3 :: rest)).

(** Of a document with its keys, [get_results] parses the four inputs, in
    their order, and nothing else. *)
Lemma get_results_of_document :
  get_results_of results
  = (score <- PyInt.int16 s0 ;; signature <- PyInt.int16 s1 ;;
     address_part1 <- PyInt.int16 s2 ;; address_part2 <- PyInt.int16 s3 ;;
     Ok (Computation.mk curve (Proof.mk a b c) scheme
           (Inputs.mk score signature address_part1 address_part2)))%result.
Proof.
  unfold get_results_of.
  rewrite Hcurve, Hproof, Hscheme, Hinputs. rstep.
  rewrite Ha, Hb, Hc. reflexivity.
Qed.

Lemma get_results_of_document_ok (v0 v1 v2 v3 : Z) :
  PyInt.int16 s0 = Ok v0 -> PyInt.int16 s1 = Ok v1 ->
  PyInt.int16 s2 = Ok v2 -> PyInt.int16 s3 = Ok v3 ->
  get_results_of results
  = Ok (Computation.mk curve (Proof.mk a b c) scheme (Inputs.mk v0 v1 v2 v3)).
Proof.
  intros H0 H1 H2 H3.
  rewrite get_results_of_document, H0, H1, H2, H3. reflexivity.
Qed.

Lemma get_results_of_document_raise :
  succeeds (PyInt.int16 s0) && succeeds (PyInt.int16 s1)
  && succeeds (PyInt.int16 s2) && succeeds (PyInt.int16 s3) = false ->
  get_results_of results = Raise ValueError.
Proof.
  rewrite get_results_of_document. chain_cases.
Qed.

End Document.

(** C5, as stated, fails: a document whose first proof field is no numeral
    is decoded without error, the field being read only when the proof is
    laid out; and a signed input is decoded to a negative number. *)
Lemma get_results_defers_proof_fields :
  (exists computation : Computation.t,
      get_results_of bad_proof_document = Ok computation /\
      Proof.to_solidity (Computation.proof computation) = Raise ValueError)
  /\ (exists computation : Computation.t,
         get_results_of signed_input_document = Ok computation /\
         Inputs.score (Computation.inputs computation) = -42).
Proof.
  split; eexists; split; reflexivity.
Qed.

(** C5, amended. Of a document with its keys and four strings as inputs,
    [get_results] parses with [int(_, 16)], when the document is read, the
    four inputs in the order score, signature, address_part1,
    address_part2, and raises [ValueError] if one of them does not parse;
    it stores the proof fields a, b, c as they are.  These are parsed with
    [int(_, 16)] when the proof is laid out for the verifier, where a field
    that does not parse raises [ValueError] too. *)
Theorem get_results_decoding
    (results curve proof a b c scheme : pyval)
    (s0 s1 s2 s3 : string) (rest : list pyval) :
  PyVal.getitem_key results "curve" = Ok curve ->
  PyVal.getitem_key results "proof" = Ok proof ->
  PyVal.getitem_key proof "a" = Ok a ->
  PyVal.getitem_key proof "b" = Ok b ->
  PyVal.getitem_key proof "c" = Ok c ->
  PyVal.getitem_key results "scheme" = Ok scheme ->
  PyVal.getitem_key results "inputs"
  = Ok (PList (PStr s0 :: PStr s1 :: PStr s2 :: PStr s3 :: rest)) ->
  (forall score signature address_part1 address_part2 : Z,
      PyInt.int16 s0 = Ok score -> PyInt.int16 s1 = Ok signature ->
      PyInt.int16 s2 = Ok address_part1 -> PyInt.int16 s3 = Ok address_part2 ->
      get_results_of results
      = Ok (Computation.mk curve (Proof.mk a b c) scheme
              (Inputs.mk score signature address_part1 address_part2)))
  /\ (succeeds (PyInt.int16 s0) && succeeds (PyInt.int16 s1)
      && succeeds (PyInt.int16 s2) && succeeds (PyInt.int16 s3) = false ->
      get_results_of results = Raise ValueError)
  /\ (forall a0 a1 b00 b01 b10 b11 c0 c1 : string,
         a = PList [PStr a0; PStr a1] ->
         b = PList [PList [PStr b00; PStr b01]; PList [PStr b10; PStr b11]] ->
         c = PList [PStr c0; PStr c1] ->
         Proof.to_solidity (Proof.mk a b c)
         = (va0 <- PyInt.int16 a0 ;; va1 <- PyInt.int16 a1 ;;
            vb00 <- PyInt.int16 b00 ;; vb01 <- PyInt.int16 b01 ;;
            vb10 <- PyInt.int16 b10 ;; vb11 <- PyInt.int16 b11 ;;
            vc0 <- PyInt.int16 c0 ;; vc1 <- PyInt.int16 c1 ;;
            Ok ((va0, va1), [[vb00; vb01]; [vb10; vb11]], (vc0, vc1)))%result
         /\ (succeeds (PyInt.int16 a0) && succeeds (PyInt.int16 a1)
             && succeeds (PyInt.int16 b00) && succeeds (PyInt.int16 b01)
             && succeeds (PyInt.int16 b10) && succeeds (PyInt.int16 b11)
             && succeeds (PyInt.int16 c0) && succeeds (PyInt.int16 c1) = false ->
             Proof.to_solidity (Proof.mk a b c) = Raise ValueError)).
Proof.
  intros Hcurve Hproof Ha Hb Hc Hscheme Hinputs. split; [| split].
  - intros. eapply get_results_of_document_ok; eassumption.
  - eapply get_results_of_document_raise; eassumption.
  - intros a0 a1 b00 b01 b10 b11 c0 c1 -> -> ->. split.
    + apply to_solidity_strings.
    + apply to_solidity_strings_raise.
Qed.

Lemma get_results_decoding_witness :
  get_results_of good_document
  = Ok (Computation.mk (PStr "bn128")
          (Proof.mk (PList [PStr "0x09"; PStr "0x0a"])
                    (PList [PList [PStr "0x0b"; PStr "0x0c"];
                            PList [PStr "0x0d"; PStr "0x0e"]])
                    (PList [PStr "0x0f"; PStr "0x10"]))
          (PStr "g16") (Inputs.mk 42 7 11 12)).
Proof.
  refine (proj1 (get_results_decoding good_document _ _ _ _ _ _
                   "0x2a" "0x07" "0x0b" "0x0c" []
                   eq_refl eq_refl eq_refl eq_refl eq_refl eq_refl eq_refl)
            42 7 11 12 eq_refl eq_refl eq_refl eq_refl).
Defined.


(** ** Runs over an arbitrary world *)

Lemma submitted_app (tr1 tr2 : list event) :
  submitted (tr1 ++ tr2) = submitted tr1 ++ submitted tr2.
Proof.
  induction tr1 as [| [o | p i | p i] tr1 IH]; cbn; rewrite ?IH; reflexivity.
Qed.

Section Runs.

Variable world : Type.
Variable get_zokrates_container_name : world -> result string * world.
Variable exec_compute_witness :
  string -> list Z -> world -> result CompletedProcess * world.
Variable exec_cat_proof : string -> world -> result CompletedProcess * world.
Variable json_loads : string -> result pyval.
Variable open_contract : string -> string -> world -> result unit * world.
Variable transact_verifyTx :
  string -> sol_proof -> list Z -> world -> result unit * world.
Variable call_verifyTx : sol_proof -> list Z -> world -> result bool * world.

Variables private_key verifier_contract_address ethereum_rpc_url : string.

Let compute (stats : Stats.t) : M world Computation.t :=
  Stats_compute get_zokrates_container_name exec_compute_witness
    exec_cat_proof json_loads stats.

Let verify (inputs : Inputs.t) (proof : Proof.t) : M world bool :=
  Contract_verify open_contract transact_verifyTx call_verifyTx inputs proof
    private_key verifier_contract_address ethereum_rpc_url.

Let run (stats : Stats.t) : M world unit :=
  main get_zokrates_container_name exec_compute_witness exec_cat_proof
    json_loads open_contract transact_verifyTx call_verifyTx stats
    private_key verifier_contract_address ethereum_rpc_url.

Lemma quiet_ret {A : Type} (x : A) : quiet (ret (world := world) x).
Proof. intros st. reflexivity. Qed.

Lemma quiet_raise {A : Type} (e : exn) :
  quiet (raise (world := world) (A := A) e).
Proof. intros st. reflexivity. Qed.

Lemma quiet_lift {A : Type} (r : result A) : quiet (lift (world := world) r).
Proof. intros st. reflexivity. Qed.

Lemma quiet_ask {A : Type} (oracle : world -> result A * world) :
  quiet (ask oracle).
Proof. intros st. unfold ask. destruct (oracle (the_world st)). reflexivity. Qed.

Lemma quiet_bind {A B : Type} (m : M world A) (k : A -> M world B) :
  quiet m -> (forall x, quiet (k x)) -> quiet (bind m k).
Proof.
  intros Hm Hk st. unfold bind. specialize (Hm st).
  destruct (m st) as [[x | e] st1]; cbn [snd] in *.
  - rewrite (Hk x st1). exact Hm.
  - exact Hm.
Qed.

(** The proof client prints nothing and submits nothing. *)
Lemma Stats_compute_quiet (stats : Stats.t) : quiet (compute stats).
Proof.
  unfold compute, Stats_compute, Docker_run_compute_witness,
    Docker_get_results.
  repeat first
    [ apply quiet_bind; [| intros ?]
    | apply quiet_ask | apply quiet_lift | apply quiet_raise
    | match goal with |- quiet (if ?c then _ else _) => destruct c end ].
Qed.

(** [Contract.verify] on a proof that lays out and a node that answers: two
    submissions of the same values, and the answer of the read-only call
    handed back as it is, be it [true], [false] or an exception. *)
Lemma Contract_verify_answer (inputs : Inputs.t) (proof : Proof.t)
    (st : state world) (w1 w2 w3 : world) (p : sol_proof)
    (answer : result bool) :
  open_contract ethereum_rpc_url verifier_contract_address (the_world st)
  = (Ok tt, w1) ->
  Proof.to_solidity proof = Ok p ->
  transact_verifyTx private_key p (Inputs.to_solidity inputs) w1 = (Ok tt, w2) ->
  call_verifyTx p (Inputs.to_solidity inputs) w2 = (answer, w3) ->
  verify inputs proof st
  = (answer,
     mkState w3 (trace st ++ [EvTransact p (Inputs.to_solidity inputs)]
                          ++ [EvCall p (Inputs.to_solidity inputs)])).
Proof.
  intros Hopen Hp Htx Hcall.
  unfold verify, Contract_verify, bind, ask, lift, emit.
  cbn [the_world trace]. rewrite Hopen, Hp. cbn [the_world trace].
  rewrite Htx. cbn [the_world trace]. rewrite Hcall, <- app_assoc.
  reflexivity.
Qed.

(** Whatever the outcome, [Contract.verify] submits nothing but the layout
    of the proof with the four inputs in their order. *)
Lemma Contract_verify_submits (inputs : Inputs.t) (proof : Proof.t)
    (st : state world) :
  exists subs : list (sol_proof * list Z),
    submitted (trace (snd (verify inputs proof st)))
    = submitted (trace st) ++ subs /\
    (forall x, In x subs ->
       exists p, Proof.to_solidity proof = Ok p /\
                 x = (p, Inputs.to_solidity inputs)) /\
    (forall b : bool, fst (verify inputs proof st) = Ok b ->
       exists p, Proof.to_solidity proof = Ok p /\
                 subs = [(p, Inputs.to_solidity inputs);
                         (p, Inputs.to_solidity inputs)]).
Proof.
  unfold verify, Contract_verify, bind, ask, lift, emit.
  cbn [the_world trace].
  destruct (open_contract _ _ _) as [[[] | e] w1]; cbn [the_world trace snd fst].
  2: { exists []. rewrite app_nil_r. repeat split; [contradiction | discriminate]. }
  destruct (Proof.to_solidity proof) as [p | e]; cbn [the_world trace snd fst].
  2: { exists []. rewrite app_nil_r. repeat split; [contradiction | discriminate]. }
  destruct (transact_verifyTx _ _ _ _) as [[[] | e] w2];
    cbn [the_world trace snd fst].
  2: { exists [(p, Inputs.to_solidity inputs)].
       rewrite submitted_app. repeat split; [| discriminate].
       intros x [<- | []]. exists p. split; reflexivity. }
  destruct (call_verifyTx _ _ _) as [r w3]; cbn [the_world trace snd fst].
  exists [(p, Inputs.to_solidity inputs); (p, Inputs.to_solidity inputs)].
  rewrite !submitted_app, <- app_assoc. repeat split.
  - intros x [<- | [<- | []]]; exists p; split; reflexivity.
  - intros _ _. exists p. split; reflexivity.
Qed.

(** What [main] hands to [Contract.verify]: one call of the split, whose
    two values fill the address fields. *)
Lemma other_inputs_split (computation : Computation.t) (stats : Stats.t) :
  other_inputs computation stats
  = match Stats.split_address stats with
    | Ok (part1, part2) =>
        Ok (Inputs.mk (Inputs.score (Computation.inputs computation))
                      (Inputs.signature (Computation.inputs computation))
                      part1 part2)
    | Raise e => Raise e
    end.
Proof.
  unfold other_inputs.
  destruct (Stats.split_address stats) as [[part1 part2] | e]; reflexivity.
Qed.

(** Normalises what a trace of prints adds to the submissions: nothing. *)
Ltac subs_norm :=
  rewrite ?submitted_app; cbn [submitted]; rewrite ?app_nil_r; reflexivity.

(** [main], stage by stage. *)
Lemma main_stages (stats : Stats.t) (st : state world) :
  run stats st
  = match compute stats (snd (print (OutText "Calculating score...") st)) with
    | (Raise e, st1) => (Raise e, st1)
    | (Ok computation, st1) =>
        let st1' := snd (print (OutCalculation computation) st1) in
        match other_inputs computation stats with
        | Raise e => (Raise e, st1')
        | Ok inputs =>
            match verify inputs (Computation.proof computation) st1' with
            | (Raise e, st2) => (Raise e, st2)
            | (Ok receipt, st2) =>
                let certified := trace st2 ++ [EvPrint (OutCertified receipt)] in
                match Inputs.get_normalized_score inputs with
                | Raise e => (Raise e, mkState (the_world st2) certified)
                | Ok q =>
                    (if receipt then Ok tt
                     else Raise (RuntimeError verification_failed),
                     mkState (the_world st2)
                       ((certified ++ [EvPrint (OutScore q)])
                        ++ [EvPrint (OutContractAddress
                                       (Stats.contract_address stats))]))
                end
            end
        end
    end.
Proof.
  unfold run, main, compute, verify, bind, print, emit, lift. cbn [snd].
  destruct (Stats_compute _ _ _ _ _ _) as [[computation | e] st1];
    [| reflexivity].
  destruct (other_inputs computation stats) as [inputs | e]; [| reflexivity].
  destruct (Contract_verify _ _ _ _ _ _ _ _ _) as [[receipt | e] st2];
    [| reflexivity].
  unfold ret, raise. cbn [the_world trace].
  destruct (Inputs.get_normalized_score inputs) as [q | e]; [| reflexivity].
  destruct receipt; reflexivity.
Qed.

(** Every submission of a run carries the layout of the proof the client
    returned, its score and signature, and the two values of the split of
    the address of the fact set. *)
Lemma main_submits (stats : Stats.t) (st : state world) :
  exists subs : list (sol_proof * list Z),
    submitted (trace (snd (run stats st))) = submitted (trace st) ++ subs /\
    forall x, In x subs ->
      exists computation st1 part1 part2,
        compute stats (snd (print (OutText "Calculating score...") st))
        = (Ok computation, st1) /\
        Stats.split_address stats = Ok (part1, part2) /\
        Proof.to_solidity (Computation.proof computation) = Ok (fst x) /\
        snd x = [ Inputs.score (Computation.inputs computation);
                  Inputs.signature (Computation.inputs computation);
                  part1; part2 ].
Proof.
  rewrite main_stages.
  pose proof (Stats_compute_quiet stats
                (snd (print (OutText "Calculating score...") st))) as Hq.
  destruct (compute stats _) as [[computation | e] st1] eqn:Hc;
    cbn [snd] in Hq; unfold print, emit in Hq; cbn [snd trace] in Hq.
  2: { exists []. cbn [snd]. rewrite Hq. split; [subs_norm | contradiction]. }
  cbv zeta. rewrite other_inputs_split.
  destruct (Stats.split_address stats) as [[part1 part2] | e] eqn:Hs.
  2: { exists []. unfold print, emit. cbn [snd trace]. rewrite Hq.
       split; [subs_norm | contradiction]. }
  set (inputs := Inputs.mk _ _ part1 part2).
  destruct (Contract_verify_submits inputs (Computation.proof computation)
              (snd (print (OutCalculation computation) st1)))
    as (subs & Hsub & Hin & _).
  assert (Hpre : submitted (trace (snd (print (OutCalculation computation) st1)))
                 = submitted (trace st)).
  { unfold print, emit. cbn [snd trace]. rewrite Hq. subs_norm. }
  rewrite Hpre in Hsub.
  exists subs. split.
  - destruct (verify inputs _ _) as [[receipt | e] st2]; cbn [snd] in Hsub |- *.
    + destruct (Inputs.get_normalized_score inputs) as [q | e];
        cbn [snd trace]; rewrite ?submitted_app, Hsub; subs_norm.
    + exact Hsub.
  - intros x Hx. destruct (Hin x Hx) as (p & Hp & ->).
    exists computation, st1, part1, part2. repeat split. exact Hp.
Qed.

(** The tail of [main], once the proof client has answered. *)
Lemma main_after_compute (stats : Stats.t) (st st1 st2 : state world)
    (computation : Computation.t) (inputs : Inputs.t) (r : result bool) :
  compute stats (snd (print (OutText "Calculating score...") st))
  = (Ok computation, st1) ->
  other_inputs computation stats = Ok inputs ->
  verify inputs (Computation.proof computation)
         (snd (print (OutCalculation computation) st1)) = (r, st2) ->
  run stats st
  = match r with
    | Raise e => (Raise e, st2)
    | Ok receipt =>
        let certified := trace st2 ++ [EvPrint (OutCertified receipt)] in
        match Inputs.get_normalized_score inputs with
        | Raise e => (Raise e, mkState (the_world st2) certified)
        | Ok q =>
            (if receipt then Ok tt else Raise (RuntimeError verification_failed),
             mkState (the_world st2)
               ((certified ++ [EvPrint (OutScore q)])
                ++ [EvPrint (OutContractAddress (Stats.contract_address stats))]))
        end
    end.
Proof.
  intros Hc Ho Hv.
  unfold compute, print, emit in Hc. cbn [snd] in Hc.
  unfold verify, print, emit in Hv. cbn [snd] in Hv.
  unfold run, main, bind, print, emit, lift.
  rewrite Hc, Ho.
  rewrite Hv. destruct r as [receipt | e]; [| reflexivity].
  unfold ret, raise. cbn [the_world trace].
  destruct (Inputs.get_normalized_score inputs) as [q | e]; [| reflexivity].
  destruct receipt; reflexivity.
Qed.


(** C1. The inputs handed to the verifier take score and signature from the
    computation and both address fields from the split of the address of
    the fact set; a computation that claims other address fields gives the
    same inputs; and every submission of a run of [main] carries these four
    values. *)
Theorem other_inputs_recomputed (stats : Stats.t) (computation : Computation.t) :
  other_inputs computation stats
  = match Stats.split_address stats with
    | Ok (part1, part2) =>
        Ok (Inputs.mk (Inputs.score (Computation.inputs computation))
                      (Inputs.signature (Computation.inputs computation))
                      part1 part2)
    | Raise e => Raise e
    end
  /\ (forall claimed1 claimed2 : Z,
         other_inputs (with_claimed_address computation claimed1 claimed2) stats
         = other_inputs computation stats)
  /\ (forall st : state world,
         exists subs : list (sol_proof * list Z),
           submitted (trace (snd (run stats st)))
           = submitted (trace st) ++ subs /\
           forall x, In x subs ->
             exists returned st1 part1 part2,
               compute stats (snd (print (OutText "Calculating score...") st))
               = (Ok returned, st1) /\
               Stats.split_address stats = Ok (part1, part2) /\
               snd x = [ Inputs.score (Computation.inputs returned);
                         Inputs.signature (Computation.inputs returned);
                         part1; part2 ]).
Proof.
  split; [apply other_inputs_split | split].
  - intros claimed1 claimed2. rewrite !other_inputs_split. reflexivity.
  - intros st. destruct (main_submits stats st) as (subs & Hsub & Hin).
    exists subs. split; [exact Hsub |].
    intros x Hx. destruct (Hin x Hx) as (c & st1 & p1 & p2 & Hc & Hs & _ & Hx').
    exists c, st1, p1, p2. repeat split; assumption.
Qed.

(** C6, amended. When the proof client has answered and [Contract.verify]
    returns [false] (the answer of the read-only call, handed back without
    raising), [main] prints the verdict and ends by raising: [RuntimeError],
    unless the score is too large for the float printed before.  [main] ends
    without error only when [Contract.verify] returns [true]; an exception
    of [Contract.verify] is raised as it is. *)
Theorem main_raises_on_rejection (stats : Stats.t) (st st1 : state world)
    (computation : Computation.t) (inputs : Inputs.t) :
  compute stats (snd (print (OutText "Calculating score...") st))
  = (Ok computation, st1) ->
  other_inputs computation stats = Ok inputs ->
  let proof := Computation.proof computation in
  let st1' := snd (print (OutCalculation computation) st1) in
  (forall (w1 w2 w3 : world) (p : sol_proof) (answer : result bool),
      open_contract ethereum_rpc_url verifier_contract_address (the_world st1')
      = (Ok tt, w1) ->
      Proof.to_solidity proof = Ok p ->
      transact_verifyTx private_key p (Inputs.to_solidity inputs) w1
      = (Ok tt, w2) ->
      call_verifyTx p (Inputs.to_solidity inputs) w2 = (answer, w3) ->
      fst (verify inputs proof st1') = answer)
  /\ (forall st2 : state world,
         verify inputs proof st1' = (Ok false, st2) ->
         In (EvPrint (OutCertified false)) (trace (snd (run stats st))) /\
         succeeds (fst (run stats st)) = false /\
         fst (run stats st)
         = match Inputs.get_normalized_score inputs with
           | Ok _ => Raise (RuntimeError verification_failed)
           | Raise e => Raise e
           end)
  /\ (forall st2 : state world,
         verify inputs proof st1' = (Ok true, st2) ->
         fst (run stats st)
         = match Inputs.get_normalized_score inputs with
           | Ok _ => Ok tt
           | Raise e => Raise e
           end)
  /\ (forall (e : exn) (st2 : state world),
         verify inputs proof st1' = (Raise e, st2) ->
         run stats st = (Raise e, st2)).
Proof.
  intros Hc Ho proof st1'.
  pose proof (main_after_compute stats st st1) as Hmain.
  split; [| split; [| split]].
  - intros w1 w2 w3 p answer Hopen Hp Htx Hcall.
    rewrite (Contract_verify_answer inputs proof st1' w1 w2 w3 p answer);
      auto.
  - intros st2 H. rewrite (Hmain st2 computation inputs _ Hc Ho H). cbv zeta.
    destruct (Inputs.get_normalized_score inputs); cbn [fst snd trace];
      rewrite ?in_app_iff; cbn; tauto.
  - intros st2 H. rewrite (Hmain st2 computation inputs _ Hc Ho H). cbv zeta.
    destruct (Inputs.get_normalized_score inputs); reflexivity.
  - intros e st2 H. apply (Hmain st2 computation inputs _ Hc Ho H).
Qed.

End Runs.

(** C6, as stated, fails: with a prover that answers and a verifier whose
    read-only call returns [false], [main] prints the verdict [false] and
    then raises. *)
Lemma main_raises_when_verifier_rejects :
  fst (Stub.verify (Ok false) (Inputs.mk 42 7 0 0)
         (Computation.proof good_computation) Stub.start) = Ok false
  /\ In (EvPrint (OutCertified false))
     (trace (snd (Stub.run good_document (Ok false)
                    (stats_of_address address40) Stub.start)))
  /\ fst (Stub.run good_document (Ok false)
            (stats_of_address address40) Stub.start)
     = Raise (RuntimeError verification_failed).
Proof.
  split; [reflexivity | split; [vm_compute; tauto | reflexivity]].
Qed.

Lemma main_raises_on_rejection_witness :
  fst (Stub.run good_document (Ok false) (stats_of_address address40) Stub.start)
  = Raise (RuntimeError verification_failed).
Proof.
  destruct (main_raises_on_rejection unit Stub.container Stub.compute_witness
              Stub.cat_proof (Stub.loads good_document) Stub.open Stub.transact
              (Stub.call (Ok false)) "key" "verifier" "url"
              (stats_of_address address40) Stub.start _ good_computation _
              eq_refl eq_refl) as (_ & H & _).
  destruct (H _ eq_refl) as (_ & _ & E). exact E.
Defined.


(** An exception of the read-only call is the exception of the run. *)
Example main_raises_transport_failure :
  fst (Stub.run good_document (Raise (ExternalError "ConnectionError"))
         (stats_of_address address40) Stub.start)
  = Raise (ExternalError "ConnectionError").
Proof. reflexivity. Qed.

(** With a verifier that accepts, the run ends without error, having
    submitted twice the layout of the proof with the recomputed address. *)
Example main_accepts :
  Stub.run good_document (Ok true) (stats_of_address "00ff") Stub.start
  = (Ok tt,
     mkState tt
       [ EvPrint (OutText "Calculating score...");
         EvPrint (OutCalculation good_computation);
         EvTransact ((9, 10), [[11; 12]; [13; 14]], (15, 16)) [42; 7; 0; 255];
         EvCall ((9, 10), [[11; 12]; [13; 14]], (15, 16)) [42; 7; 0; 255];
         EvPrint (OutCertified true);
         EvPrint (OutScore (42, Inputs.BN128_PRIME));
         EvPrint (OutContractAddress "00ff") ]).
Proof. reflexivity. Qed.

Lemma other_inputs_recomputed_witness :
  other_inputs (with_claimed_address good_computation 1 2)
    (stats_of_address "00ff")
  = Ok (Inputs.mk 42 7 0 255).
Proof.
  destruct (other_inputs_recomputed unit Stub.container Stub.compute_witness
              Stub.cat_proof (Stub.loads good_document) Stub.open Stub.transact
              (Stub.call (Ok true)) "key" "verifier" "url"
              (stats_of_address "00ff") good_computation) as (_ & H & _).
  rewrite H. reflexivity.
Defined.

(** ** The split and the function of its docstring *)

Lemma split_value_halves (m : nat) (s : string) :
  Hex.value s
  = Hex.value (PyStr.slice_to m s) * 16 ^ Z.of_nat (String.length s - m)
    + Hex.value (PyStr.slice_from m s).
Proof.
  rewrite <- (slice_app m s) at 1.
  rewrite value_app, slice_from_length. reflexivity.
Qed.

(** X1. On a 40-digit address the split is the function of the docstring,
    [(address >> 80, address & (2^80 - 1))], and both parts are below
    [2^80]. *)
Theorem split_address_matches_docstring (stats : Stats.t) :
  let s := Stats.contract_address stats in
  Hex.all_digits s = true ->
  String.length s = 40%nat ->
  Stats.split_address stats = Ok (splitAddress (Hex.value s))
  /\ 0 <= fst (splitAddress (Hex.value s)) < 2 ^ 80
  /\ 0 <= snd (splitAddress (Hex.value s)) < 2 ^ 80.
Proof.
  intros s Hd HL.
  assert (H2 : (2 <= String.length s)%nat) by (fold s; lia).
  rewrite (split_address_digits stats Hd H2). fold s. rewrite HL.
  change (40 / 2)%nat with 20%nat.
  pose proof (split_value_halves 20 s) as HV.
  rewrite HL in HV. change (Z.of_nat (40 - 20)) with 20 in HV.
  pose proof (value_bound (PyStr.slice_to 20 s)) as B1.
  pose proof (value_bound (PyStr.slice_from 20 s)) as B2.
  rewrite slice_to_length in B1 by lia.
  rewrite slice_from_length, HL in B2.
  change (Z.of_nat 20) with 20 in B1.
  change (Z.of_nat (40 - 20)) with 20 in B2.
  set (v1 := Hex.value (PyStr.slice_to 20 s)) in *.
  set (v2 := Hex.value (PyStr.slice_from 20 s)) in *.
  change (16 ^ 20) with (2 ^ 80) in *.
  assert (Hmod : Hex.value s mod 2 ^ 160 = Hex.value s).
  { apply Z.mod_small. change (2 ^ 160) with (2 ^ 80 * 2 ^ 80). nia. }
  assert (Hhi : Z.shiftr (Hex.value s) 80 = v1).
  { rewrite Z.shiftr_div_pow2 by lia. rewrite HV.
    rewrite Z.div_add_l by lia. rewrite Z.div_small by lia. lia. }
  assert (Hlo : Z.land (Hex.value s) (Z.shiftl 1 80 - 1) = v2).
  { change (Z.shiftl 1 80 - 1) with (Z.ones 80).
    rewrite Z.land_ones by lia. rewrite HV.
    rewrite Z.add_comm, Z.mod_add by lia. apply Z.mod_small. lia. }
  unfold splitAddress. rewrite Hmod, Hhi, Hlo.
  rewrite !Z.mod_small by (change (2 ^ 128) with (2 ^ 80 * 2 ^ 48); nia).
  cbn [fst snd]. repeat split; lia.
Qed.

Lemma split_address_matches_docstring_witness :
  Stats.split_address (stats_of_address address40)
  = Ok (splitAddress (Hex.value address40)).
Proof.
  apply (split_address_matches_docstring (stats_of_address address40));
    reflexivity.
Defined.

(** [int(_, 16)] of a numeral written with the prefix [0x] or [0X]. *)
Lemma int16_prefixed (x : ascii) (s : string) :
  x = "x"%char \/ x = "X"%char ->
  Hex.all_digits s = true -> s <> EmptyString ->
  PyInt.int16 (String "0" (String x s)) = Ok (Hex.value s).
Proof.
  intros Hx H Hne. destruct s as [| c s]; [contradiction |].
  pose proof H as H0. cbn in H0. apply andb_true_iff in H0 as [Hc Hs].
  apply is_digit_value in Hc.
  destruct (digit_table _ _ Hc) as (Hv & Hr & Hu & _).
  unfold PyInt.int16, PyInt.PyLong_FromString16.
  assert (Hpre : PyInt.strip_prefix16 (String "0" (String x (String c s)))
                 = String c s).
  { destruct Hx as [-> | ->]; cbn; revert Hu; clear;
      each_ascii c; cbn; intros Hu; (reflexivity || discriminate Hu). }
  change (PyInt.skip_spaces (String "0" (String x (String c s))))
    with (String "0" (String x (String c s))).
  change (PyInt.strip_sign (String "0" (String x (String c s))))
    with (1, String "0" (String x (String c s))).
  cbv iota beta. rewrite Hpre.
  unfold PyInt.long_from_string_base. rewrite Hu, Hv.
  replace (Hex.digit c <? 16) with true by (symmetry; apply Z.ltb_lt; lia).
  rewrite (scan_all_digits _ 0 H).
  change (PyInt.all_spaces EmptyString) with true. cbv iota.
  rewrite Z.mul_1_l. reflexivity.
Qed.



(** On the address of the examples the two splits differ. *)
Example split_address_prefixed_differs :
  Stats.split_address (stats_of_address (String "0" (String "x" address40)))
  <> Ok (splitAddress (Hex.value address40)).
Proof. vm_compute. discriminate. Qed.

(** ** How large a decoded number can be *)

Lemma DigitValue_nonneg (c : ascii) : 0 <= PyInt.PyLong_DigitValue c.
Proof. each_ascii c; vm_compute; discriminate. Qed.

Lemma scan_digits_bound (p : string) (prev_us : bool) (acc z : Z)
    (rest : string) :
  0 <= acc ->
  PyInt.scan_digits 16 p prev_us acc = Some (z, rest) ->
  0 <= z < (acc + 1) * 16 ^ Z.of_nat (String.length p).
Proof.
  revert prev_us acc. induction p as [| c p IH]; intros prev_us acc Hacc;
    cbn [PyInt.scan_digits String.length].
  - destruct prev_us; intros H; [discriminate H |].
    injection H as <- _. cbn. lia.
  - rewrite Nat2Z.inj_succ, Z.pow_succ_r by lia.
    assert (Hpow : 0 < 16 ^ Z.of_nat (String.length p))
      by (apply Z.pow_pos_nonneg; lia).
    destruct (PyInt.is_underscore c).
    + destruct prev_us; intros H; [discriminate H |].
      apply IH in H; [| exact Hacc]. nia.
    + destruct (PyInt.PyLong_DigitValue c <? 16) eqn:Hd.
      * apply Z.ltb_lt in Hd. pose proof (DigitValue_nonneg c) as Hn.
        intros H. apply IH in H; [| lia]. nia.
      * destruct prev_us; intros H; [discriminate H |].
        injection H as <- _. nia.
Qed.

Lemma skip_spaces_length (s : string) :
  (String.length (PyInt.skip_spaces s) <= String.length s)%nat.
Proof.
  induction s as [| c s IH]; cbn; [lia |].
  destruct (PyInt.Py_ISSPACE c); cbn; lia.
Qed.

Lemma long_from_string_base_bound (str : string) (z : Z) :
  PyInt.long_from_string_base 16 str = Some z ->
  0 <= z < 16 ^ Z.of_nat (String.length str).
Proof.
  unfold PyInt.long_from_string_base. destruct str as [| c str];
    [discriminate |].
  destruct (PyInt.is_underscore c); [discriminate |].
  destruct (PyInt.PyLong_DigitValue c <? 16); [| discriminate].
  destruct (PyInt.scan_digits 16 (String c str) false 0) as [[z' rest] |] eqn:E;
    [| discriminate].
  destruct (PyInt.all_spaces rest); [| discriminate].
  intros H. injection H as <-.
  apply scan_digits_bound in E; lia.
Qed.

Lemma strip_prefix16_length (s : string) :
  (String.length (PyInt.strip_prefix16 s) <= String.length s)%nat.
Proof.
  unfold PyInt.strip_prefix16.
  destruct s as [| c0 [| c r]]; cbn [String.length]; try lia.
  - destruct (ascii_dec c0 "0") as [-> | N]; [cbn; lia |].
    revert N. clear. each_ascii c0; intros N; cbn; (lia || contradiction).
  - destruct (ascii_dec c0 "0") as [-> | N].
    + destruct ((PyStr.ord c =? 120) || (PyStr.ord c =? 88))%bool;
        [| cbn; lia].
      destruct r as [| c1 r']; [cbn; lia |].
      destruct (ascii_dec c1 "_") as [-> | N1]; [cbn; lia |].
      revert N1. clear. each_ascii c1; intros N1; cbn; (lia || contradiction).
    + revert N. clear. each_ascii c0; intros N; cbn; (lia || contradiction).
Qed.

Lemma strip_sign_length (s : string) :
  (fst (PyInt.strip_sign s) = 1 \/ fst (PyInt.strip_sign s) = -1) /\
  (String.length (snd (PyInt.strip_sign s)) <= String.length s)%nat.
Proof.
  unfold PyInt.strip_sign. destruct s as [| c r]; [cbn; auto |].
  destruct (ascii_dec c "+") as [-> | Np]; [cbn; split; [auto | lia] |].
  destruct (ascii_dec c "-") as [-> | Nm]; [cbn; split; [auto | lia] |].
  revert Np Nm. clear. each_ascii c; intros Np Nm; cbn;
    try (split; [auto | lia]); contradiction.
Qed.

(** A string that [int(_, 16)] accepts denotes a number below [16 ^ len]
    in magnitude; so a numeral of at most 64 characters is within the range
    of a [uint256], sign apart. *)
Lemma int16_magnitude (s : string) (z : Z) :
  PyInt.int16 s = Ok z ->
  Z.abs z < 16 ^ Z.of_nat (String.length s)
  /\ ((String.length s <= 64)%nat -> - 2 ^ 256 < z < 2 ^ 256).
Proof.
  intros H.
  assert (B : Z.abs z < 16 ^ Z.of_nat (String.length s)).
  { unfold PyInt.int16, PyInt.PyLong_FromString16 in H.
    pose proof (skip_spaces_length s) as L1.
    destruct (strip_sign_length (PyInt.skip_spaces s)) as [Hsign L2].
    destruct (PyInt.strip_sign (PyInt.skip_spaces s)) as [sign str].
    cbn [fst snd] in Hsign, L2.
    pose proof (strip_prefix16_length str) as L3.
    destruct (PyInt.long_from_string_base 16 (PyInt.strip_prefix16 str))
      as [v |] eqn:E; [| discriminate H].
    injection H as <-.
    apply long_from_string_base_bound in E.
    assert (16 ^ Z.of_nat (String.length (PyInt.strip_prefix16 str))
            <= 16 ^ Z.of_nat (String.length s))
      by (apply Z.pow_le_mono_r; lia).
    destruct Hsign as [-> | ->]; lia. }
  split; [exact B |].
  intros HL.
  assert (16 ^ Z.of_nat (String.length s) <= 16 ^ 64)
    by (apply Z.pow_le_mono_r; lia).
  change (2 ^ 256) with (16 ^ 64). lia.
Qed.

(** ** Documents: what is decoded, and the errors of what is not *)

Lemma is_numeral_spec (s : string) :
  is_numeral s = true -> Hex.all_digits s = true /\ s <> EmptyString.
Proof.
  unfold is_numeral. intros H. apply andb_true_iff in H as [Hd Hn].
  split; [exact Hd |]. intros ->. discriminate Hn.
Qed.

Lemma int16_numeral (s : string) :
  is_numeral s = true -> PyInt.int16 (prefixed s) = Ok (Hex.value s).
Proof.
  intros H. apply is_numeral_spec in H as [Hd Hn].
  apply int16_prefixed; auto.
Qed.

(** X4. A document in the prover's format, every number of which is
    written [0x] and hexadecimal digits, is decoded to the values of these
    digits: the four inputs when the document is read, the eight proof
    fields when the proof is laid out. *)
Theorem decode_prover_document
    (results curve proof scheme : pyval)
    (a0 a1 b00 b01 b10 b11 c0 c1 i0 i1 i2 i3 : string) (rest : list pyval) :
  PyVal.getitem_key results "curve" = Ok curve ->
  PyVal.getitem_key results "proof" = Ok proof ->
  PyVal.getitem_key proof "a" = Ok (PList [PStr (prefixed a0); PStr (prefixed a1)]) ->
  PyVal.getitem_key proof "b"
  = Ok (PList [PList [PStr (prefixed b00); PStr (prefixed b01)];
               PList [PStr (prefixed b10); PStr (prefixed b11)]]) ->
  PyVal.getitem_key proof "c" = Ok (PList [PStr (prefixed c0); PStr (prefixed c1)]) ->
  PyVal.getitem_key results "scheme" = Ok scheme ->
  PyVal.getitem_key results "inputs"
  = Ok (PList (PStr (prefixed i0) :: PStr (prefixed i1)
               :: PStr (prefixed i2) :: PStr (prefixed i3) :: rest)) ->
  forallb is_numeral [a0; a1; b00; b01; b10; b11; c0; c1; i0; i1; i2; i3]
  = true ->
  exists computation : Computation.t,
    get_results_of results = Ok computation /\
    Computation.inputs computation
    = Inputs.mk (Hex.value i0) (Hex.value i1) (Hex.value i2) (Hex.value i3) /\
    Proof.to_solidity (Computation.proof computation)
    = Ok ((Hex.value a0, Hex.value a1),
          [[Hex.value b00; Hex.value b01]; [Hex.value b10; Hex.value b11]],
          (Hex.value c0, Hex.value c1)).
Proof.
  intros Hcurve Hproof Ha Hb Hc Hscheme Hinputs Hall.
  cbn [forallb] in Hall.
  repeat match type of Hall with
         | (_ && _)%bool = true =>
             let H := fresh "N" in apply andb_true_iff in Hall as [H Hall]
         end.
  eexists. split; [| split].
  - eapply get_results_of_document_ok; try eassumption;
      apply int16_numeral; assumption.
  - reflexivity.
  - cbn [Computation.proof].
    apply to_solidity_strings_ok; apply int16_numeral; assumption.
Qed.

Lemma decode_prover_document_witness :
  exists computation : Computation.t,
    get_results_of good_document = Ok computation /\
    Computation.inputs computation
    = Inputs.mk (Hex.value "2a") (Hex.value "07") (Hex.value "0b")
                (Hex.value "0c") /\
    Proof.to_solidity (Computation.proof computation)
    = Ok ((Hex.value "09", Hex.value "0a"),
          [[Hex.value "0b"; Hex.value "0c"]; [Hex.value "0d"; Hex.value "0e"]],
          (Hex.value "0f", Hex.value "10")).
Proof.
  refine (decode_prover_document good_document _ _ _
            "09" "0a" "0b" "0c" "0d" "0e" "0f" "10" "2a" "07" "0b" "0c" []
            eq_refl eq_refl eq_refl eq_refl eq_refl eq_refl eq_refl eq_refl).
Defined.

Lemma getitem_key_error (v : pyval) (k : string) (e : exn) :
  PyVal.getitem_key v k = Raise e -> e = KeyError \/ e = TypeError.
Proof.
  destruct v; cbn; intros H; try (injection H as <-; auto).
  destruct (PyVal.dict_get d k); [discriminate H | injection H as <-; auto].
Qed.

Lemma index_error (i : nat) (s : string) (e : exn) :
  PyStr.index i s = Raise e -> e = IndexError.
Proof.
  revert i. induction s as [| c s IH]; intros [| i]; cbn; intros H;
    try (injection H as <-; reflexivity); try discriminate H.
  apply (IH i H).
Qed.

Lemma getitem_idx_error (v : pyval) (i : nat) (e : exn) :
  PyVal.getitem_idx v i = Raise e ->
  e = KeyError \/ e = TypeError \/ e = IndexError.
Proof.
  destruct v; cbn; intros H; try (injection H as <-; auto).
  - destruct (PyStr.index i s) eqn:E; cbn in H; [discriminate H |].
    injection H as <-. apply index_error in E. auto.
  - destruct (nth_error l i); [discriminate H | injection H as <-; auto].
Qed.

Lemma pyval_int16_error (v : pyval) (e : exn) :
  PyVal.int16 v = Raise e -> e = ValueError \/ e = TypeError.
Proof.
  destruct v; cbn; intros H; try (injection H as <-; auto).
  apply int16_raises_ValueError in H. auto.
Qed.

(** Closes a goal [e] is one of the four errors from the stage that
    raised it. *)
Ltac error_class :=
  match goal with
  | E : PyVal.getitem_key _ _ = Raise _ |- _ =>
      apply getitem_key_error in E; tauto
  | E : PyVal.getitem_idx _ _ = Raise _ |- _ =>
      apply getitem_idx_error in E; tauto
  | E : PyVal.int16 _ = Raise _ |- _ =>
      apply pyval_int16_error in E; tauto
  end.

Ltac error_stages :=
  repeat match goal with
         | |- match (match ?y with Ok _ => _ | Raise _ => _ end)
              with Ok _ => _ | Raise _ => _ end = Raise _ -> _ =>
             let E := fresh "E" in
             destruct y eqn:E; cbv beta iota;
             [ | let H := fresh in intros H; injection H as <-; error_class ]
         | |- match ?x with Ok _ => _ | Raise _ => _ end = Raise _ -> _ =>
             let E := fresh "E" in
             destruct x eqn:E;
             [ | let H := fresh in intros H; injection H as <-; error_class ]
         end.

(** X5. Whatever the document, reading it and laying out its proof raise
    nothing but [KeyError], [TypeError], [IndexError] or [ValueError]. *)
Theorem document_errors (e : exn) :
  (forall results : pyval, get_results_of results = Raise e ->
     e = KeyError \/ e = TypeError \/ e = IndexError \/ e = ValueError)
  /\ (forall proof : Proof.t, Proof.to_solidity proof = Raise e ->
        e = KeyError \/ e = TypeError \/ e = IndexError \/ e = ValueError).
Proof.
  split.
  - intros results. unfold get_results_of. rstep. error_stages.
    discriminate.
  - intros proof. unfold Proof.to_solidity, Proof.hex_at2, Proof.hex_at.
    rstep. error_stages. discriminate.
Qed.

(** Splits the run of [get_results] recorded in the goal at each stage that
    must have succeeded. *)
Ltac ok_stages :=
  repeat match goal with
         | |- match (match ?y with Ok _ => _ | Raise _ => _ end)
              with Ok _ => _ | Raise _ => _ end = Ok _ -> _ =>
             let E := fresh "E" in
             destruct y eqn:E; cbv beta iota; [ | discriminate ]
         | |- match ?x with Ok _ => _ | Raise _ => _ end = Ok _ -> _ =>
             let E := fresh "E" in
             destruct x eqn:E; cbv beta iota; [ | discriminate ]
         end.

(** X3. A number decoded from the document is below [16 ^ len] in
    magnitude, [len] the length of its string: inputs written in at most
    64 characters are decoded within the range of a [uint256], sign
    apart. *)
Theorem get_results_inputs_bounded (results : pyval)
    (s0 s1 s2 s3 : string) (rest : list pyval)
    (computation : Computation.t) :
  PyVal.getitem_key results "inputs"
  = Ok (PList (PStr s0 :: PStr s1 :: PStr s2 :: PStr s3 :: rest)) ->
  get_results_of results = Ok computation ->
  let inputs := Computation.inputs computation in
  (Z.abs (Inputs.score inputs) < 16 ^ Z.of_nat (String.length s0)
   /\ Z.abs (Inputs.signature inputs) < 16 ^ Z.of_nat (String.length s1)
   /\ Z.abs (Inputs.address_part1 inputs) < 16 ^ Z.of_nat (String.length s2)
   /\ Z.abs (Inputs.address_part2 inputs) < 16 ^ Z.of_nat (String.length s3))
  /\ (forallb (fun s => (String.length s <=? 64)%nat) [s0; s1; s2; s3] = true ->
      Forall (fun z => - 2 ^ 256 < z < 2 ^ 256) (Inputs.to_solidity inputs)).
Proof.
  intros Hinputs. unfold get_results_of. rstep. rewrite Hinputs.
  cbn [PyVal.getitem_idx nth_error PyVal.int16]. ok_stages.
  intros H. injection H as <-. cbn [Computation.inputs].
  cbn [Inputs.score Inputs.signature Inputs.address_part1
       Inputs.address_part2 Inputs.to_solidity].
  repeat match goal with
         | E : PyInt.int16 _ = Ok _ |- _ => apply int16_magnitude in E
         end.
  split; [tauto |].
  cbn [forallb]. intros HL.
  repeat match type of HL with
         | (_ && _)%bool = true =>
             let H := fresh "L" in apply andb_true_iff in HL as [H HL]
         end.
  repeat match goal with
         | L : (_ <=? 64)%nat = true |- _ => apply Nat.leb_le in L
         end.
  repeat constructor; tauto.
Qed.

Lemma get_results_inputs_bounded_witness :
  Forall (fun z => - 2 ^ 256 < z < 2 ^ 256)
         (Inputs.to_solidity (Computation.inputs good_computation)).
Proof.
  apply (proj2 (get_results_inputs_bounded good_document
                  "0x2a" "0x07" "0x0b" "0x0c" [] good_computation
                  eq_refl eq_refl)).
  reflexivity.
Defined.

(** ** More on the runs: what is submitted, when, and what ends a run *)



Section Verifier.

Variable world : Type.
Variable get_zokrates_container_name : world -> result string * world.
Variable exec_compute_witness :
  string -> list Z -> world -> result CompletedProcess * world.
Variable exec_cat_proof : string -> world -> result CompletedProcess * world.
Variable json_loads : string -> result pyval.
Variable open_contract : string -> string -> world -> result unit * world.
Variable transact_verifyTx :
  string -> sol_proof -> list Z -> world -> result unit * world.
Variable call_verifyTx : sol_proof -> list Z -> world -> result bool * world.

Variables private_key verifier_contract_address ethereum_rpc_url : string.

Let compute (stats : Stats.t) : M world Computation.t :=
  Stats_compute get_zokrates_container_name exec_compute_witness
    exec_cat_proof json_loads stats.

Let verify (inputs : Inputs.t) (proof : Proof.t) : M world bool :=
  Contract_verify open_contract transact_verifyTx call_verifyTx inputs proof
    private_key verifier_contract_address ethereum_rpc_url.

Let run (stats : Stats.t) : M world unit :=
  main get_zokrates_container_name exec_compute_witness exec_cat_proof
    json_loads open_contract transact_verifyTx call_verifyTx stats
    private_key verifier_contract_address ethereum_rpc_url.

(** What lies behind a value returned by [Contract.verify]. *)
Lemma Contract_verify_inv (inputs : Inputs.t) (proof : Proof.t)
    (st st' : state world) (b : bool) :
  verify inputs proof st = (Ok b, st') ->
  exists (w1 w2 w3 : world) (p : sol_proof),
    open_contract ethereum_rpc_url verifier_contract_address (the_world st)
    = (Ok tt, w1) /\
    Proof.to_solidity proof = Ok p /\
    transact_verifyTx private_key p (Inputs.to_solidity inputs) w1
    = (Ok tt, w2) /\
    call_verifyTx p (Inputs.to_solidity inputs) w2 = (Ok b, w3) /\
    st' = mkState w3 (trace st ++ [EvTransact p (Inputs.to_solidity inputs)]
                               ++ [EvCall p (Inputs.to_solidity inputs)]).
Proof.
  unfold verify, Contract_verify, bind, ask, lift, emit.
  cbn [the_world trace].
  destruct (open_contract _ _ _) as [[[] | e] w1] eqn:Hopen;
    cbn [the_world trace]; [| discriminate].
  destruct (Proof.to_solidity proof) as [p | e] eqn:Hp;
    cbn [the_world trace]; [| discriminate].
  destruct (transact_verifyTx _ _ _ _) as [[[] | e] w2] eqn:Htx;
    cbn [the_world trace]; [| discriminate].
  destruct (call_verifyTx _ _ _) as [r w3] eqn:Hcall; cbn [the_world trace].
  intros H. injection H as -> <-.
  exists w1, w2, w3, p. rewrite <- app_assoc. repeat split; assumption.
Qed.


(** X6. [Contract.verify] returns a value exactly when the contract opens,
    the proof lays out, the transaction is mined and the read-only call,
    made after it on the same values, answers; the value is that answer. *)
Theorem Contract_verify_returns (inputs : Inputs.t) (proof : Proof.t)
    (st st' : state world) (b : bool) :
  verify inputs proof st = (Ok b, st') <->
  exists (w1 w2 w3 : world) (p : sol_proof),
    open_contract ethereum_rpc_url verifier_contract_address (the_world st)
    = (Ok tt, w1) /\
    Proof.to_solidity proof = Ok p /\
    transact_verifyTx private_key p (Inputs.to_solidity inputs) w1
    = (Ok tt, w2) /\
    call_verifyTx p (Inputs.to_solidity inputs) w2 = (Ok b, w3) /\
    st' = mkState w3 (trace st ++ [EvTransact p (Inputs.to_solidity inputs)]
                               ++ [EvCall p (Inputs.to_solidity inputs)]).
Proof.
  split.
  - apply Contract_verify_inv.
  - intros (w1 & w2 & w3 & p & Hopen & Hp & Htx & Hcall & ->).
    unfold verify, Contract_verify, bind, ask, lift, emit.
    cbn [the_world trace]. rewrite Hopen, Hp. cbn [the_world trace].
    rewrite Htx. cbn [the_world trace]. rewrite Hcall, <- app_assoc.
    reflexivity.
Qed.

(** X7. A proof that does not lay out is never submitted: the run of
    [Contract.verify] raises, and leaves the trace as it was; when the
    contract opens, what it raises is the error of the layout. *)
Theorem Contract_verify_malformed_proof (inputs : Inputs.t) (proof : Proof.t)
    (st : state world) (e : exn) :
  Proof.to_solidity proof = Raise e ->
  trace (snd (verify inputs proof st)) = trace st
  /\ succeeds (fst (verify inputs proof st)) = false
  /\ (forall w1 : world,
         open_contract ethereum_rpc_url verifier_contract_address (the_world st)
         = (Ok tt, w1) ->
         verify inputs proof st = (Raise e, mkState w1 (trace st))).
Proof.
  intros Hp. unfold verify, Contract_verify, bind, ask, lift, emit.
  cbn [the_world trace]. rewrite Hp.
  destruct (open_contract _ _ _) as [[[] | e'] w1]; cbn [the_world trace snd fst].
  - repeat split. intros w H. injection H as <-. reflexivity.
  - repeat split. intros w H. discriminate H.
Qed.

(** X10. In a run that has passed the asserts of [main] and has built its
    [stats] (no argument is empty), when the address does not split,
    lines 346-365 raise the error of the split right after the line
    [Calculating score...]: neither the prover nor the verifier is used,
    and the world is as the gathering of the facts left it. *)
Theorem main_fails_before_prover (stats : Stats.t) (st : state world)
    (e : exn) :
  Stats.contract_address stats <> EmptyString ->
  private_key <> EmptyString ->
  verifier_contract_address <> EmptyString ->
  ethereum_rpc_url <> EmptyString ->
  Stats.split_address stats = Raise e ->
  run stats st
  = (Raise e,
     mkState (the_world st)
       (trace st ++ [EvPrint (OutText "Calculating score...")])).
Proof.
  intros _ _ _ _ H. unfold run, main, Stats_compute, bind, print, emit, lift.
  cbn [the_world trace]. rewrite (to_zkvm_input_raises stats e H).
  reflexivity.
Qed.

(** X8. A run of [main] that ends without error has seen the read-only
    call answer [true] on the proof the client returned and on its score
    and signature with the two values of the split of the address. *)
Theorem main_ok_means_accepted (stats : Stats.t) (st st' : state world) :
  run stats st = (Ok tt, st') ->
  exists (computation : Computation.t) (st1 : state world) (p : sol_proof)
         (part1 part2 : Z) (w w' : world),
    compute stats (snd (print (OutText "Calculating score...") st))
    = (Ok computation, st1) /\
    Stats.split_address stats = Ok (part1, part2) /\
    Proof.to_solidity (Computation.proof computation) = Ok p /\
    call_verifyTx p [ Inputs.score (Computation.inputs computation);
                      Inputs.signature (Computation.inputs computation);
                      part1; part2 ] w
    = (Ok true, w') /\
    In (EvPrint (OutCertified true)) (trace st').
Proof.
  unfold run, compute. rewrite main_stages.
  destruct (Stats_compute _ _ _ _ _ _) as [[computation | e] st1] eqn:Hc;
    [| discriminate].
  cbv zeta. rewrite other_inputs_split.
  destruct (Stats.split_address stats) as [[part1 part2] | e] eqn:Hs;
    [| discriminate].
  set (inputs := Inputs.mk _ _ part1 part2).
  destruct (Contract_verify _ _ _ _ _ _ _ _ _) as [[receipt | e] st2] eqn:Hv;
    [| discriminate].
  destruct (Inputs.get_normalized_score inputs) as [q | e]; [| discriminate].
  destruct receipt; [| discriminate].
  intros H. injection H as <-.
  apply Contract_verify_inv in Hv as (w1 & w2 & w3 & p & _ & Hp & _ & Hcall & _).
  exists computation, st1, p, part1, part2, w2, w3.
  repeat split; try assumption.
  cbn [trace]. rewrite !in_app_iff. cbn. tauto.
Qed.


End Verifier.

Lemma Contract_verify_returns_witness :
  Stub.verify (Ok true) (Inputs.mk 42 7 0 255)
    (Computation.proof good_computation) Stub.start
  = (Ok true,
     mkState tt
       ([] ++ [EvTransact ((9, 10), [[11; 12]; [13; 14]], (15, 16)) [42; 7; 0; 255]]
           ++ [EvCall ((9, 10), [[11; 12]; [13; 14]], (15, 16)) [42; 7; 0; 255]])).
Proof.
  apply (proj2 (Contract_verify_returns unit Stub.open Stub.transact
                  (Stub.call (Ok true)) "key" "verifier" "url"
                  (Inputs.mk 42 7 0 255) (Computation.proof good_computation)
                  Stub.start _ true)).
  exists tt, tt, tt, ((9, 10), [[11; 12]; [13; 14]], (15, 16)).
  repeat split.
Defined.

Lemma Contract_verify_malformed_proof_witness :
  Stub.verify (Ok true) (Inputs.mk 42 7 0 255) bad_proof Stub.start
  = (Raise ValueError, Stub.start).
Proof.
  apply (proj2 (proj2 (Contract_verify_malformed_proof unit Stub.open
                         Stub.transact (Stub.call (Ok true))
                         "key" "verifier" "url" (Inputs.mk 42 7 0 255)
                         bad_proof Stub.start ValueError eq_refl)) tt).
  reflexivity.
Defined.

Lemma main_fails_before_prover_witness :
  Stub.run good_document (Ok true) (stats_of_address "0") Stub.start
  = (Raise ValueError,
     mkState tt ([] ++ [EvPrint (OutText "Calculating score...")])).
Proof.
  apply (main_fails_before_prover unit Stub.container Stub.compute_witness
           Stub.cat_proof (Stub.loads good_document) Stub.open Stub.transact
           (Stub.call (Ok true)) "key" "verifier" "url"
           (stats_of_address "0") Stub.start ValueError);
    (discriminate || reflexivity).
Defined.

Lemma main_ok_means_accepted_witness :
  exists (computation : Computation.t) (st1 : state unit) (p : sol_proof)
         (part1 part2 : Z) (w w' : unit),
    Stats_compute Stub.container Stub.compute_witness Stub.cat_proof
      (Stub.loads good_document) (stats_of_address "00ff")
      (snd (print (OutText "Calculating score...") Stub.start))
    = (Ok computation, st1) /\
    Stats.split_address (stats_of_address "00ff") = Ok (part1, part2) /\
    Proof.to_solidity (Computation.proof computation) = Ok p /\
    Stub.call (Ok true) p
      [ Inputs.score (Computation.inputs computation);
        Inputs.signature (Computation.inputs computation); part1; part2 ] w
    = (Ok true, w') /\
    In (EvPrint (OutCertified true))
       (trace (snd (Stub.run good_document (Ok true)
                      (stats_of_address "00ff") Stub.start))).
Proof.
  apply (main_ok_means_accepted unit Stub.container Stub.compute_witness
           Stub.cat_proof (Stub.loads good_document) Stub.open Stub.transact
           (Stub.call (Ok true)) "key" "verifier" "url"
           (stats_of_address "00ff") Stub.start).
  reflexivity.
Defined.

(** X12. The prover and the verifier are given the same address: the
    encoder succeeds exactly when the inputs of the verifier can be built,
    and the first two of its eight numbers are their two address fields. *)
Theorem prover_and_verifier_share_address (stats : Stats.t)
    (computation : Computation.t) :
  succeeds (Stats.to_zkvm_input stats)
  = succeeds (other_inputs computation stats)
  /\ (forall (params : list Z) (inputs : Inputs.t),
         Stats.to_zkvm_input stats = Ok params ->
         other_inputs computation stats = Ok inputs ->
         firstn 2 params
         = [Inputs.address_part1 inputs; Inputs.address_part2 inputs]
         /\ length params = 8%nat).
Proof.
  rewrite other_inputs_split. unfold Stats.to_zkvm_input.
  destruct (Stats.split_address stats) as [[part1 part2] | e]; rstep.
  - split; [reflexivity |]. intros params inputs Hp Hi.
    injection Hp as <-. injection Hi as <-. split; reflexivity.
  - split; [reflexivity |]. intros params inputs Hp. discriminate Hp.
Qed.

Lemma prover_and_verifier_share_address_witness :
  firstn 2 [0; 255; 0; 0; 0; 0; 0; 0] = [0; 255] /\
  length [0; 255; 0; 0; 0; 0; 0; 0] = 8%nat.
Proof.
  apply (proj2 (prover_and_verifier_share_address (stats_of_address "00ff")
                  good_computation)
           [0; 255; 0; 0; 0; 0; 0; 0] (Inputs.mk 42 7 0 255));
    reflexivity.
Defined.

(** ** The container of the prover *)

Lemma lower_z_not_space (c : ascii) :
  PyText.lower_char c = "z"%char -> PyText.isspace c = false.
Proof. each_ascii c; vm_compute; intros H; (reflexivity || discriminate H). Qed.

Lemma prefix_head (a b : ascii) (s1 s2 : string) :
  String.prefix (String a s1) (String b s2) = true -> a = b.
Proof.
  cbn. destruct (ascii_dec a b) as [-> | N]; [reflexivity | discriminate].
Qed.

Lemma split_first_word (c : ascii) (s : string) :
  PyText.isspace c = false -> PyText.split (String c s) <> [].
Proof.
  intros Hc. cbn [PyText.split]. rewrite Hc.
  destruct s as [| c' s']; [discriminate |].
  destruct (PyText.isspace c'); [discriminate |].
  destruct (PyText.split (String c' s')); discriminate.
Qed.

Lemma split_keeps_words (c : ascii) (s : string) :
  PyText.split s <> [] -> PyText.split (String c s) <> [].
Proof.
  intros Hs. destruct (PyText.isspace c) eqn:Hc.
  - cbn [PyText.split]. rewrite Hc. exact Hs.
  - apply split_first_word, Hc.
Qed.

(** A line that mentions the prover has a word. *)
Lemma mention_has_word (line : string) :
  PyText.contains "zokrates" (PyText.lower line) = true ->
  PyText.split line <> [].
Proof.
  induction line as [| c line IH].
  - cbn. discriminate.
  - cbn [PyText.lower PyText.contains]. intros H.
    apply orb_true_iff in H as [H | H].
    + apply prefix_head in H. symmetry in H.
      apply split_first_word, lower_z_not_space, H.
    + apply split_keeps_words, IH, H.
Qed.

Lemma last_item_some {A : Type} (l : list A) :
  l <> [] -> exists x, PyText.last_item l = Ok x /\ In x l.
Proof.
  induction l as [| x [| y l] IH]; intros H; [contradiction | |].
  - exists x. split; [reflexivity | left; reflexivity].
  - destruct IH as (z & Hz & Hin); [discriminate |].
    exists z. split; [exact Hz | right; exact Hin].
Qed.

Lemma last_item_in {A : Type} (l : list A) (x : A) :
  PyText.last_item l = Ok x -> In x l.
Proof.
  induction l as [| y [| y' l] IH]; intros H.
  - discriminate H.
  - injection H as <-. left. reflexivity.
  - right. apply IH, H.
Qed.

(** The words of [split] are non-empty and hold no white space. *)
Lemma split_words (s w : string) :
  In w (PyText.split s) ->
  w <> EmptyString /\
  forall c, In c (list_ascii_of_string w) -> PyText.isspace c = false.
Proof.
  revert w. induction s as [| c s IH]; intros w; [contradiction |].
  cbn [PyText.split]. destruct (PyText.isspace c) eqn:Hc; [apply IH |].
  assert (Hone : w = String c EmptyString ->
                 w <> EmptyString /\
                 forall c0, In c0 (list_ascii_of_string w) ->
                            PyText.isspace c0 = false).
  { intros ->. split; [discriminate |]. intros c0 [<- | []]. exact Hc. }
  destruct s as [| c' s']; [intros [<- | []]; apply Hone; reflexivity |].
  destruct (PyText.isspace c') eqn:Hc'.
  - intros [<- | Hin]; [apply Hone; reflexivity | apply IH, Hin].
  - destruct (PyText.split (String c' s')) as [| word words] eqn:E.
    + intros [<- | []]. apply Hone; reflexivity.
    + intros [<- | Hin].
      * destruct (IH word (or_introl eq_refl)) as [_ Hword].
        split; [discriminate |]. intros c0 [<- | Hc0]; [exact Hc |].
        apply Hword, Hc0.
      * apply IH. right. exact Hin.
Qed.

(** The loop returns the last word of the first line that mentions the
    prover, and raises when no line does. *)
Lemma first_zokrates_line_spec (containers : list string) :
  match first_zokrates_line containers with
  | Ok name =>
      exists before line after,
        containers = before ++ line :: after /\
        forallb (fun l => negb (PyText.contains "zokrates" (PyText.lower l)))
                before = true /\
        PyText.contains "zokrates" (PyText.lower line) = true /\
        PyText.last_item (PyText.split line) = Ok name
  | Raise e =>
      e = RuntimeError no_container /\
      forallb (fun l => negb (PyText.contains "zokrates" (PyText.lower l)))
              containers = true
  end.
Proof.
  induction containers as [| line rest IH]; cbn [first_zokrates_line].
  - split; reflexivity.
  - destruct (PyText.contains "zokrates" (PyText.lower line)) eqn:Hm.
    + destruct (last_item_some _ (mention_has_word line Hm)) as (x & Hx & _).
      rewrite Hx. exists [], line, rest. repeat split; assumption.
    + destruct (first_zokrates_line rest) as [name | e].
      * destruct IH as (before & l & after & -> & Hb & Hl & Hn).
        exists (line :: before), l, after. repeat split; try assumption.
        cbn [forallb]. rewrite Hm, Hb. reflexivity.
      * destruct IH as [-> Hall]. split; [reflexivity |].
        cbn [forallb]. rewrite Hm, Hall. reflexivity.
Qed.

(** X13. Reading the container off the result of [docker ps] raises
    nothing but the [RuntimeError] of the missing container, and raises it
    exactly when the command failed or no line of its output mentions
    [zokrates], in any case of the letters; an output of white space is
    such an output. *)
Theorem container_name_outcomes (completed : CompletedProcess) :
  let lines :=
    PyText.split_char newline (PyText.strip (stdout completed)) in
  let silent :=
    forallb (fun l => negb (PyText.contains "zokrates" (PyText.lower l)))
            lines in
  (container_name_of completed = Raise (RuntimeError no_container)
   \/ exists name, container_name_of completed = Ok name)
  /\ (container_name_of completed = Raise (RuntimeError no_container)
      <-> returncode completed <> 0 \/ silent = true).
Proof.
  intros lines silent. unfold container_name_of. fold lines.
  pose proof (first_zokrates_line_spec lines) as Hspec.
  assert (Hblank : PyText.truthy (PStr (PyText.strip (stdout completed)))
                   = false -> silent = true).
  { unfold silent, lines. cbn [PyText.truthy].
    destruct (PyText.strip (stdout completed)); [reflexivity | discriminate]. }
  destruct (returncode completed =? 0) eqn:Hrc; cbn [negb orb].
  - apply Z.eqb_eq in Hrc.
    destruct (PyText.truthy (PStr (PyText.strip (stdout completed)))) eqn:Ht;
      cbn [negb].
    + destruct (first_zokrates_line lines) as [name | e].
      * destruct Hspec as (before & l & after & Hlines & Hb & Hl & Hn).
        split; [right; exists name; reflexivity |].
        split; [discriminate |]. intros [H | H]; [contradiction |].
        exfalso. unfold silent in H. rewrite Hlines, forallb_app in H.
        cbn [forallb] in H. rewrite Hl in H. cbn in H.
        rewrite andb_false_r in H. discriminate H.
      * destruct Hspec as [-> Hall]. split; [left; reflexivity |].
        split; [intros _; right; exact Hall | reflexivity].
    + split; [left; reflexivity |].
      split; [intros _; right; apply Hblank; reflexivity | reflexivity].
  - apply Z.eqb_neq in Hrc. split; [left; reflexivity |].
    split; [intros _; left; exact Hrc | reflexivity].
Qed.

(** X14. The container returned is the last word of the first line of the
    output that mentions [zokrates]: a non-empty name without white space,
    returned only when the command succeeded. *)
Theorem container_name_is_last_word (completed : CompletedProcess)
    (name : string) :
  container_name_of completed = Ok name ->
  returncode completed = 0
  /\ (exists before line after,
         PyText.split_char newline (PyText.strip (stdout completed))
         = before ++ line :: after /\
         forallb (fun l => negb (PyText.contains "zokrates" (PyText.lower l)))
                 before = true /\
         PyText.contains "zokrates" (PyText.lower line) = true /\
         PyText.last_item (PyText.split line) = Ok name)
  /\ name <> EmptyString
  /\ (forall c, In c (list_ascii_of_string name) -> PyText.isspace c = false).
Proof.
  unfold container_name_of.
  destruct (returncode completed =? 0) eqn:Hrc; cbn [negb orb];
    [| discriminate].
  destruct (negb (PyText.truthy _)); [discriminate |].
  pose proof (first_zokrates_line_spec
                (PyText.split_char newline (PyText.strip (stdout completed))))
    as Hspec.
  intros H. rewrite H in Hspec.
  destruct Hspec as (before & line & after & Hlines & Hb & Hl & Hn).
  split; [apply Z.eqb_eq, Hrc |].
  split; [exists before, line, after; repeat split; assumption |].
  apply (split_words line name), last_item_in, Hn.
Qed.

Lemma container_name_is_last_word_witness :
  returncode (mkCompletedProcess 0 docker_listing EmptyString) = 0
  /\ (exists before line after,
         PyText.split_char newline (PyText.strip docker_listing)
         = before ++ line :: after /\
         forallb (fun l => negb (PyText.contains "zokrates" (PyText.lower l)))
                 before = true /\
         PyText.contains "zokrates" (PyText.lower line) = true /\
         PyText.last_item (PyText.split line) = Ok "eager_turing")
  /\ "eager_turing" <> EmptyString
  /\ (forall c, In c (list_ascii_of_string "eager_turing") ->
                PyText.isspace c = false).
Proof.
  apply (container_name_is_last_word
           (mkCompletedProcess 0 docker_listing EmptyString) "eager_turing").
  reflexivity.
Defined.

(** ** The command line of the prover *)

(** The characters of a decimal numeral: a digit or the sign. *)
Lemma uint_chars (d : Decimal.uint) (c : ascii) :
  In c (list_ascii_of_string (DecimalString.NilEmpty.string_of_uint d)) ->
  48 <= PyStr.ord c <= 57.
Proof.
  induction d as [| d IH | d IH | d IH | d IH | d IH | d IH | d IH | d IH
                  | d IH | d IH]; cbn;
    try contradiction; intros [<- | H]; try (vm_compute; split; discriminate);
    apply IH, H.
Qed.

Lemma str_int_chars (z : Z) (c : ascii) :
  In c (list_ascii_of_string (PyText.str_int z)) ->
  c = "-"%char \/ 48 <= PyStr.ord c <= 57.
Proof.
  unfold PyText.str_int, DecimalString.NilZero.string_of_int.
  assert (Hu : forall d, In c (list_ascii_of_string
                                 (DecimalString.NilZero.string_of_uint d)) ->
                         48 <= PyStr.ord c <= 57).
  { intros d. unfold DecimalString.NilZero.string_of_uint.
    destruct d; try apply uint_chars.
    cbn. intros [<- | []]. vm_compute. split; discriminate. }
  destruct (Z.to_int z) as [d | d].
  - intros H. right. apply (Hu d H).
  - cbn. intros [<- | H]; [left; reflexivity | right; apply (Hu d H)].
Qed.

Lemma str_int_nonempty (z : Z) : PyText.str_int z <> EmptyString.
Proof.
  unfold PyText.str_int. destruct z as [| p | p]; cbn; try discriminate.
  pose proof (DecimalPos.Unsigned.to_uint_nonnil p) as N.
  unfold DecimalString.NilZero.string_of_uint.
  destruct (Pos.to_uint p); (contradiction || discriminate).
Qed.

Lemma str_int_injective (z z' : Z) :
  PyText.str_int z = PyText.str_int z' -> z = z'.
Proof.
  unfold PyText.str_int. intros H.
  apply DecimalZ.to_int_inj.
  assert (Hnn : forall n, Z.to_int n <> Decimal.Pos Decimal.Nil /\
                          Z.to_int n <> Decimal.Neg Decimal.Nil).
  { intros [| p | p]; cbn; split; try discriminate;
      intros E; injection E as E;
      apply (DecimalPos.Unsigned.to_uint_nonnil p E). }
  destruct (Hnn z) as [Hz1 Hz2]. destruct (Hnn z') as [Hz1' Hz2'].
  pose proof (DecimalString.NilZero.isi _ Hz1 Hz2) as E.
  pose proof (DecimalString.NilZero.isi _ Hz1' Hz2') as E'.
  rewrite H in E. rewrite E in E'. injection E' as E'. exact E'.
Qed.

Lemma append_length (a b : string) :
  String.length (a ++ b) = (String.length a + String.length b)%nat.
Proof. induction a as [| c a IH]; cbn; [reflexivity | rewrite IH; reflexivity]. Qed.

Lemma append_right_cancel (a b s : string) :
  (a ++ s)%string = (b ++ s)%string -> a = b.
Proof.
  intros H.
  assert (HL : String.length a = String.length b).
  { apply (f_equal String.length) in H. rewrite !append_length in H. lia. }
  revert b H HL. induction a as [| c a IH]; intros [| c' b] H HL;
    try discriminate HL; [reflexivity |].
  cbn in H. injection H as -> H. f_equal. apply IH; [exact H |].
  cbn in HL. lia.
Qed.

Lemma join_cons (x : string) (l : list string) :
  PyText.join " " (x :: l)
  = (x ++ match l with
          | [] => EmptyString
          | _ => String " " (PyText.join " " l)
          end)%string.
Proof.
  destruct l as [| y l]; cbn [PyText.join].
  - induction x as [| c x IH]; cbn; [reflexivity | rewrite <- IH; reflexivity].
  - reflexivity.
Qed.

Lemma word_then_rest (t t' r r' : string) :
  (forall c, In c (list_ascii_of_string t) -> c <> " "%char) ->
  (forall c, In c (list_ascii_of_string t') -> c <> " "%char) ->
  (r = EmptyString \/ exists r0, r = String " " r0) ->
  (r' = EmptyString \/ exists r0, r' = String " " r0) ->
  (t ++ r)%string = (t' ++ r')%string -> t = t' /\ r = r'.
Proof.
  revert t'. induction t as [| c t IH]; intros [| c' t'] Ht Ht' Hr Hr' H;
    cbn in H.
  - split; [reflexivity | exact H].
  - exfalso. destruct Hr as [-> | [r0 ->]]; [discriminate H |].
    injection H as <- _. apply (Ht' " "%char); [left |]; reflexivity.
  - exfalso. destruct Hr' as [-> | [r0 ->]]; [discriminate H |].
    injection H as -> _. apply (Ht " "%char); [left |]; reflexivity.
  - injection H as -> H.
    destruct (IH t') as [-> ->]; auto.
    + intros c Hc. apply Ht. right. exact Hc.
    + intros c Hc. apply Ht'. right. exact Hc.
Qed.

Lemma join_injective (l l' : list string) :
  Forall one_word l -> Forall one_word l' ->
  PyText.join " " l = PyText.join " " l' -> l = l'.
Proof.
  intros Hl. revert l'. induction Hl as [| x l [Hx Hxc] Hl IH];
    intros l' Hl' H; destruct Hl' as [| x' l' [Hx' Hxc'] Hl'].
  - reflexivity.
  - exfalso. rewrite join_cons in H. cbn [PyText.join] in H.
    destruct x'; [contradiction | discriminate H].
  - exfalso. rewrite join_cons in H. cbn [PyText.join] in H.
    destruct x; [contradiction | discriminate H].
  - rewrite !join_cons in H.
    apply word_then_rest in H as [-> Hrest]; try assumption.
    + f_equal. destruct l as [| y l]; destruct l' as [| y' l'];
        try discriminate Hrest; [reflexivity |].
      injection Hrest as Hrest. apply IH; assumption.
    + destruct l; [left; reflexivity | right; eexists; reflexivity].
    + destruct l'; [left; reflexivity | right; eexists; reflexivity].
Qed.

Lemma str_int_words (params : list Z) :
  Forall one_word (map PyText.str_int params).
Proof.
  induction params as [| z params IH]; cbn; constructor; [| exact IH].
  split; [apply str_int_nonempty |].
  intros c Hc ->. apply str_int_chars in Hc as [Hc | Hc].
  - discriminate Hc.
  - vm_compute in Hc. destruct Hc as [Hc _]. apply Hc. reflexivity.
Qed.

Lemma join_chars (l : list string) (c : ascii) :
  In c (list_ascii_of_string (PyText.join " " l)) ->
  c = " "%char \/ exists w, In w l /\ In c (list_ascii_of_string w).
Proof.
  induction l as [| x l IH]; [contradiction |].
  rewrite join_cons.
  assert (Happ : forall a b, In c (list_ascii_of_string (a ++ b)) ->
                 In c (list_ascii_of_string a) \/ In c (list_ascii_of_string b)).
  { intros a b. induction a as [| k a IHa]; cbn; [auto |].
    intros [<- | H]; [auto | destruct (IHa H); auto]. }
  intros H. apply Happ in H as [H | H].
  - right. exists x. split; [left; reflexivity | exact H].
  - destruct l as [| y l]; [contradiction |].
    destruct H as [<- | H]; [left; reflexivity |].
    destruct (IH H) as [-> | (w & Hw & Hc)]; [left; reflexivity |].
    right. exists w. split; [right; exact Hw | exact Hc].
Qed.

(** X15. The command handed to [docker] for the prover determines the
    container and the numbers, in their order; the text of the numbers
    holds digits, signs and single spaces only. *)
Theorem cmd_compute_witness_faithful (name name' : string)
    (params params' : list Z) :
  (cmd_compute_witness name params = cmd_compute_witness name' params' ->
   name = name' /\ params = params')
  /\ (forall c,
         In c (list_ascii_of_string
                 (PyText.join " " (map PyText.str_int params))) ->
         c = " "%char \/ c = "-"%char \/ 48 <= PyStr.ord c <= 57).
Proof.
  split.
  - unfold cmd_compute_witness. intros H. injection H as Hname Hscript.
    split; [exact Hname |].
    apply append_right_cancel in Hscript.
    apply (join_injective _ _ (str_int_words params) (str_int_words params'))
      in Hscript.
    revert params' Hscript. induction params as [| z params IH];
      intros [| z' params'] H; try discriminate H; [reflexivity |].
    cbn in H. injection H as Hz H.
    f_equal; [apply str_int_injective, Hz | apply IH, H].
  - intros c H. apply join_chars in H as [-> | (w & Hw & Hc)];
      [left; reflexivity | right].
    apply in_map_iff in Hw as (z & <- & _). apply (str_int_chars z c Hc).
Qed.

Lemma cmd_compute_witness_faithful_witness :
  "zokrates" = "zokrates" /\ [0; 255; -3] = [0; 255; -3].
Proof.
  apply (proj1 (cmd_compute_witness_faithful "zokrates" "zokrates"
                  [0; 255; -3] [0; 255; -3])).
  reflexivity.
Defined.

Example cmd_compute_witness_sample :
  cmd_compute_witness "eager_turing" [0; 1; 10; 1; 500; 2000; 1000; 1]
  = [ "docker"; "exec"; "-it"; "eager_turing"; "bash"; "-c";
      "cd /home/zokrates/krates && zokrates compute-witness -a 0 1 10 1 500 2000 1000 1 && zokrates generate-proof" ].
Proof. reflexivity. Qed.

(** ** Failures of the prover's stage, and the source-code fact *)

Section ProverStage.

Variable world : Type.
Variable subprocess_run :
  list string -> world -> result CompletedProcess * world.
Variable json_loads : string -> result pyval.
Variable open_contract : string -> string -> world -> result unit * world.
Variable transact_verifyTx :
  string -> sol_proof -> list Z -> world -> result unit * world.
Variable call_verifyTx : sol_proof -> list Z -> world -> result bool * world.
Variables private_key verifier_contract_address ethereum_rpc_url : string.

Let run (stats : Stats.t) : M world unit :=
  main_docker subprocess_run json_loads open_contract transact_verifyTx
    call_verifyTx stats private_key verifier_contract_address ethereum_rpc_url.

(** X11. When [docker ps] shows no container of the prover, or the prover
    exits with a code other than 0, [main] raises after its first line of
    output: the prover is not run in the first case, its document is not
    read in the second, and nothing is submitted in either. *)
Theorem main_prover_stage_failures (stats : Stats.t) (params : list Z)
    (st : state world) (completed : CompletedProcess) (w1 : world) :
  Stats.to_zkvm_input stats = Ok params ->
  subprocess_run cmd_ps (the_world st) = (Ok completed, w1) ->
  let printed := trace st ++ [EvPrint (OutText "Calculating score...")] in
  (forall e : exn,
      container_name_of completed = Raise e ->
      run stats st = (Raise e, mkState w1 printed))
  /\ (forall (name : string) (ran : CompletedProcess) (w2 : world),
         container_name_of completed = Ok name ->
         subprocess_run (cmd_compute_witness name params) w1 = (Ok ran, w2) ->
         returncode ran <> 0 ->
         run stats st
         = (Raise (RuntimeError "ZoKrates compute-witness failed!"),
            mkState w2 printed)).
Proof.
  intros Hparams Hps printed. split.
  - intros e Hname.
    unfold run, main_docker, main, Stats_compute, Docker_run_compute_witness,
      Docker_get_zokrates_container_name, bind, print, emit, lift, ask.
    cbn [the_world trace]. rewrite Hparams, Hps, Hname. reflexivity.
  - intros name ran w2 Hname Hran Hcode.
    unfold run, main_docker, main, Stats_compute, Docker_run_compute_witness,
      Docker_get_zokrates_container_name, bind, print, emit, lift, ask, raise.
    cbn [the_world trace]. rewrite Hparams, Hps, Hname.
    cbn [the_world trace]. rewrite Hran.
    apply Z.eqb_neq in Hcode. rewrite Hcode. reflexivity.
Qed.

End ProverStage.

Lemma main_prover_stage_failures_witness :
  main_docker (docker_exits 1) (Stub.loads good_document) Stub.open
    Stub.transact (Stub.call (Ok true)) (stats_of_address "00ff")
    "key" "verifier" "url" Stub.start
  = (Raise (RuntimeError "ZoKrates compute-witness failed!"),
     mkState tt ([] ++ [EvPrint (OutText "Calculating score...")])).
Proof.
  apply (proj2 (main_prover_stage_failures unit (docker_exits 1)
                  (Stub.loads good_document) Stub.open Stub.transact
                  (Stub.call (Ok true)) "key" "verifier" "url"
                  (stats_of_address "00ff") [0; 255; 0; 0; 0; 0; 0; 0]
                  Stub.start
                  (mkCompletedProcess 0 docker_listing EmptyString) tt
                  eq_refl eq_refl)
           "eager_turing" (mkCompletedProcess 1 docker_listing EmptyString) tt);
    [reflexivity | reflexivity | discriminate].
Defined.

(** X16. The source-code fact of [main] is true as soon as the first entry
    of a non-empty result holds a [SourceCode] that is not [None], be it
    the empty string; it is false on an empty result; and a result that is
    a message instead of a list raises [TypeError]. *)
Theorem main_has_source_code_cases (contract_details : pyval) :
  (forall (first source : pyval) (rest : list pyval),
      PyVal.getitem_key contract_details "result" = Ok (PList (first :: rest)) ->
      PyVal.getitem_key first "SourceCode" = Ok source ->
      main_has_source_code contract_details = Ok (PyText.is_not_None source)
      /\ (source = PStr EmptyString ->
          main_has_source_code contract_details = Ok true))
  /\ (PyVal.getitem_key contract_details "result" = Ok (PList []) ->
      main_has_source_code contract_details = Ok false)
  /\ (forall (c : ascii) (message : string),
         PyVal.getitem_key contract_details "result"
         = Ok (PStr (String c message)) ->
         main_has_source_code contract_details = Raise TypeError).
Proof.
  unfold main_has_source_code. split; [| split].
  - intros first source rest Hres Hsrc. rewrite Hres. rstep.
    cbn [PyText.truthy PyVal.getitem_idx nth_error]. rewrite Hsrc.
    split; [reflexivity |]. intros ->. reflexivity.
  - intros Hres. rewrite Hres. reflexivity.
  - intros c message Hres. rewrite Hres. reflexivity.
Qed.

Lemma main_has_source_code_cases_witness :
  main_has_source_code
    (PDict [("status", PStr "1");
            ("result", PList [PDict [("SourceCode", PStr EmptyString)]])])
  = Ok true.
Proof.
  apply (proj1 (main_has_source_code_cases
                  (PDict [("status", PStr "1");
                          ("result",
                            PList [PDict [("SourceCode", PStr EmptyString)]])]))
           (PDict [("SourceCode", PStr EmptyString)]) (PStr EmptyString) []);
    reflexivity.
Defined.

(** ** The case of the digits *)

Lemma lower_digit (c : ascii) :
  Hex.is_digit c = true ->
  Hex.is_digit (PyText.lower_char c) = true /\
  Hex.digit (PyText.lower_char c) = Hex.digit c.
Proof.
  each_ascii c; vm_compute; intros H; (discriminate H || (split; reflexivity)).
Qed.

Lemma lower_length (s : string) :
  String.length (PyText.lower s) = String.length s.
Proof. induction s as [| c s IH]; cbn; [| rewrite IH]; reflexivity. Qed.

Lemma lower_slices (m : nat) (s : string) :
  PyStr.slice_to m (PyText.lower s) = PyText.lower (PyStr.slice_to m s) /\
  PyStr.slice_from m (PyText.lower s) = PyText.lower (PyStr.slice_from m s).
Proof.
  revert s. induction m as [| m IH]; intros [| c s]; cbn; try (split; reflexivity).
  destruct (IH s) as [H1 H2]. rewrite H1, H2. split; reflexivity.
Qed.

Lemma lower_all_digits (s : string) :
  Hex.all_digits s = true ->
  Hex.all_digits (PyText.lower s) = true /\
  forall acc, Hex.value_from acc (PyText.lower s) = Hex.value_from acc s.
Proof.
  induction s as [| c s IH]; cbn; [split; reflexivity |].
  intros H. apply andb_true_iff in H as [Hc Hs].
  destruct (lower_digit c Hc) as [Hd Hv]. destruct (IH Hs) as [Ha Hval].
  rewrite Hd, Ha. split; [reflexivity |].
  intros acc. rewrite Hv. apply Hval.
Qed.

(** X17. The split does not see the case of the digits: an address of
    hexadecimal digits and its lowercase form have the same split. *)
Theorem split_address_ignores_case_of_digits (stats lowered : Stats.t) :
  Stats.contract_address lowered
  = PyText.lower (Stats.contract_address stats) ->
  Hex.all_digits (Stats.contract_address stats) = true ->
  Stats.split_address lowered = Stats.split_address stats.
Proof.
  intros Hlow Hd.
  set (s := Stats.contract_address stats) in *.
  destruct (Nat.lt_ge_cases (String.length s) 2) as [Hshort | Hlong].
  - unfold Stats.split_address, PyStr.len. rewrite Hlow. fold s.
    destruct s as [| c [| c' s']]; [reflexivity | reflexivity |].
    cbn in Hshort. lia.
  - destruct (lower_all_digits s Hd) as [Hd' Hval].
    rewrite (split_address_digits stats Hd Hlong).
    rewrite (split_address_digits lowered); rewrite Hlow;
      [| exact Hd' | rewrite lower_length; exact Hlong].
    fold s. rewrite lower_length.
    destruct (lower_slices (String.length s / 2) s) as [-> ->].
    destruct (slice_all_digits (String.length s / 2) s Hd) as [H1 H2].
    unfold Hex.value.
    rewrite (proj2 (lower_all_digits _ H1)), (proj2 (lower_all_digits _ H2)).
    reflexivity.
Qed.

Lemma split_address_ignores_case_of_digits_witness :
  Stats.split_address (stats_of_address "dac17f958d2ee523a2206206994597c13d831ec7")
  = Stats.split_address
      (stats_of_address "dAC17F958D2ee523a2206206994597C13D831ec7").
Proof.
  apply split_address_ignores_case_of_digits; reflexivity.
Defined.

Lemma document_errors_witness :
  TypeError = KeyError \/ TypeError = TypeError \/
  TypeError = IndexError \/ TypeError = ValueError.
Proof.
  apply (proj1 (document_errors TypeError) (PList [])). reflexivity.
Defined.

(** ** What the verifier is handed *)



Section Submission.

Variable world : Type.
Variable open_contract : string -> string -> world -> result unit * world.
Variable transact_verifyTx :
  string -> sol_proof -> list Z -> world -> result unit * world.
Variable call_verifyTx : sol_proof -> list Z -> world -> result bool * world.
Variables private_key verifier_contract_address ethereum_rpc_url : string.


End Submission.

